(** * A model of [static/js/main.js]

    The page script of the CSV chat client: the [debug] utility object (log
    queue, byte formatter, status polling) and the handlers installed on
    [DOMContentLoaded] (upload, delete, chat).  The script is event driven
    and single threaded: every callback runs to completion and mutates the
    page.  It is embedded here as functions over an explicit [World] record,
    one function per source function, and one [step] per browser event. *)

From Stdlib Require Import ZArith NArith List Bool Lia String Ascii.
From Stdlib Require Import DecimalString.
From coqutil Require Import Datatypes.RecordSetters.
Import ListNotations.
Import TriangleBracketNotations.
Local Open Scope Z_scope.

(** ** JavaScript strings *)

(** A JavaScript string is a sequence of UTF-16 code units. *)
Definition jsstring : Type := list N.

(** The string written by a literal of the source (ASCII only there). *)
Definition lit (s : string) : jsstring :=
  map N_of_ascii (list_ascii_of_string s).

Fixpoint jsstring_eqb (a b : jsstring) : bool :=
  match a, b with
  | [], [] => true
  | x :: a', y :: b' => N.eqb x y && jsstring_eqb a' b'
  | _, _ => false
  end.

(** [String.prototype.endsWith]: the comparison starts at
    [length - searchLength]; a negative start gives [false]. *)
Definition endsWith (s searchString : jsstring) : bool :=
  let start := Z.of_nat (List.length s) - Z.of_nat (List.length searchString) in
  if start <? 0 then false
  else jsstring_eqb (skipn (Z.to_nat start) s) searchString.

(** WhiteSpace and LineTerminator code units of ECMAScript, the ones
    [String.prototype.trim] strips. *)
Definition isWhiteSpace (c : N) : bool :=
  ((9 <=? c) && (c <=? 13) || (c =? 32) || (c =? 160) || (c =? 5760)
   || (8192 <=? c) && (c <=? 8202) || (c =? 8232) || (c =? 8233)
   || (c =? 8239) || (c =? 8287) || (c =? 12288) || (c =? 65279))%N.

Fixpoint trimStart (s : jsstring) : jsstring :=
  match s with
  | c :: s' => if isWhiteSpace c then trimStart s' else s
  | [] => []
  end.

Definition trim (s : jsstring) : jsstring :=
  rev (trimStart (rev (trimStart s))).

(** ToBoolean on a string: only the empty string is falsy. *)
Definition truthy (s : jsstring) : bool :=
  match s with [] => false | _ :: _ => true end.

(** Decimal digits of a non-negative integer. *)
Definition decimal (n : Z) : jsstring :=
  lit (NilZero.string_of_uint (N.to_uint (Z.to_N n))).

(** [s.split(' ')[0]]: the text before the first space. *)
Fixpoint firstWord (s : jsstring) : jsstring :=
  match s with
  | [] => []
  | c :: s' => if (c =? 32)%N then [] else c :: firstWord s'
  end.

(** ** Values and documents exchanged with the page *)

(** The values the script passes around without looking inside: log
    payloads, rejection reasons, console arguments. *)
#[local] Unset Elimination Schemes.
Inductive JsValue : Type :=
| JUndefined
| JNull
| JBool (b : bool)
| JNumber (n : Z)
| JString (s : jsstring)
| JObject (fields : list (jsstring * JsValue)).
#[local] Set Elimination Schemes.

(** ToBoolean. *)
Definition toBoolean (v : JsValue) : bool :=
  match v with
  | JUndefined | JNull => false
  | JBool b => b
  | JNumber n => negb (n =? 0)
  | JString s => truthy s
  | JObject _ => true
  end.

(** [v || ''] *)
Definition orEmpty (v : JsValue) : JsValue :=
  if toBoolean v then v else JString [].

Inductive LogType : Type := info | warn_t | error_t.

(** An entry of [debug.logQueue].  [debug.log] and [debug.warn] build it
    with a [data] key, [debug.error] with an [error] key; the key that is
    not there reads as [JUndefined].  [timestamp] is the instant, in
    milliseconds, whose ISO-8601 text the source stores. *)
Module LogEntry.
Record t : Type := make {
  type : LogType;
  timestamp : Z;
  message : jsstring;
  data : JsValue;
  error : JsValue
}.
End LogEntry.

(** A [File] of the browser; only its name is read. *)
Record File : Type := { name : jsstring }.

(** JSON body of [POST /upload]: [error], [stats.rows], [stats.columns],
    [preview]; a key that is absent is [None]. *)
Record UploadBody : Type := {
  upload_error : option jsstring;
  stats : option (Z * Z);
  preview : jsstring
}.

(** JSON body of [POST /query]: [error] and [response]. *)
Record QueryBody : Type := {
  query_error : option jsstring;
  response : option jsstring
}.

(** JSON document of [GET /debug/status], with the keys the page reads. *)
Record StatusDoc : Type := {
  flask_env : jsstring;
  python_version : jsstring;
  ENABLED : bool;
  used : Z;
  df_info_shape : option (Z * Z);
  chat_history_length : Z
}.

(** How a [fetch(...).then(response => response.json())] chain settles:
    the request is rejected, the body is not JSON, or the body parses.
    [ok] is [response.ok]. *)
Inductive Outcome (B : Type) : Type :=
| NetworkFailure (message : jsstring)
| ParseFailure (ok : bool) (message : jsstring)
| Json (ok : bool) (body : B).
Arguments NetworkFailure {B} message.
Arguments ParseFailure {B} ok message.
Arguments Json {B} ok body.

Inductive Request : Type :=
| GetDebugStatus
| PostUpload (file : File)
| PostQuery (query : jsstring).

(** ** The page *)

(** What [#systemStatus] shows: the markup it was served with, the block
    written by [formatSystemStatus], or the error box of the [catch]. *)
Record SystemStatusHtml : Type := {
  status_environment : jsstring;
  status_debug_mode : bool;
  status_dataframe : option (Z * Z)
}.

Inductive SystemStatusBlock : Type :=
| StatusInitial
| StatusRendered (html : SystemStatusHtml)
| StatusErrorBox (message : jsstring).

(** The three holes of the template of [formatPerformanceMetrics]. *)
Record PerformanceHtml : Type := {
  metric_memory : jsstring;
  metric_python : jsstring;
  metric_chat_messages : option Z
}.

(** The holes of one [debug-log-entry] block of [formatLogEntries]. *)
Record LogEntryHtml : Type := {
  log_time : Z;
  log_type : LogType;
  log_type_upper : jsstring;
  log_message : jsstring;
  log_data : option JsValue
}.

(** The elements of the debug panel.  The script tests each of them for
    presence, so each may be missing ([false], [None]). *)
Record DebugDom : Type := {
  debugToggle : bool;
  debugPanel : bool;
  debugPanel_show : bool;
  systemStatus : option SystemStatusBlock;
  performanceMetrics : option (option PerformanceHtml);
  recentLogs : option (list LogEntryHtml)
}.

(** What the HTML parser makes of the badge template once the file name
    is written into it ([fileInfo.innerHTML], the name is not escaped): how
    many elements with id [loadingSpinner] the name brings in, counted as
    the removals [getElementById('loadingSpinner').remove()] can make
    inside the badge, and whether [querySelector('.delete-file')] finds an
    element there.  A name without markup brings in none and leaves the
    button of the template in place. *)
Record BadgeDom : Type := {
  injected_spinner_ids : nat;
  delete_button : bool
}.

(** The nodes the script appends to [#dropZone].  The script finds them
    again by id ([loadingSpinner]) or by class ([file-info]), never through
    a reference it kept, so they carry no node number.  A badge holds the
    file name as markup: [spinner_ids] counts the elements with id
    [loadingSpinner] still inside it, [delete_listener] tells whether an
    element in it got the click listener [deleteFile]. *)
Inductive DropChild : Type :=
| LoadingSpinner
| FileInfo (fileName : jsstring) (spinner_ids : nat) (delete_listener : bool).

Record UploadDom : Type := {
  drag_over : bool;
  dropZone : list DropChild;
  csvFile_value : jsstring;
  statsSection_d_none : bool;
  rowCount : Z;
  colCount : Z;
  previewContent : jsstring
}.

(** How a node got its content: [innerHTML] hands the string to the HTML
    parser, [textContent] makes it one text node. *)
Inductive NodeContent : Type :=
| InnerHTML (markup : jsstring)
| TextContent (text : jsstring).

(** A child of [#chatMessages].  [node] identifies the DOM node: closures
    keep a reference to the typing indicator they created. *)
Inductive ChatChild : Type :=
| WelcomeMessage
| MessageDiv (node : nat) (className : jsstring) (content : NodeContent).

Definition typingIndicator_className : jsstring :=
  lit "message assistant-message typing-indicator".

Definition typingIndicator_markup : jsstring :=
  lit "<span></span><span></span><span></span>".

Record ChatDom : Type := {
  queryInput_value : jsstring;
  queryInput_disabled : bool;
  queryBtn_disabled : bool;
  clearChat_disabled : bool;
  chatMessages : list ChatChild
}.

Inductive Animation : Type := fadeIn | fadeOut.

(** A toast appended to [document.body] by [showNotification]. *)
Record Notification : Type := {
  notification_node : nat;
  alert_class : jsstring;
  textContent : jsstring;
  animation : Animation
}.

Inductive TimeoutCallback : Type :=
| NotificationFadeOut (node : nat)
| NotificationRemove (node : nat).

Inductive IntervalCallback : Type :=
| PollSystemStatus
| SampleMemory.

(** A request in flight, with what its continuation closes over. *)
Inductive Pending : Type :=
| PendingStatus
| PendingUpload (file : File)
| PendingQuery (typingIndicator : nat).

Inductive ConsoleLevel : Type := console_log | console_error | console_warn.

(** A console call: the instant and message of its first argument (the
    instant is missing where the source prints none) and its second. *)
Record ConsoleLine : Type := {
  console_level : ConsoleLevel;
  console_timestamp : option Z;
  console_message : jsstring;
  console_arg : JsValue
}.

(** What the browser keeps for the page: toasts, timers, the network. *)
Record Browser : Type := {
  notifications : list Notification;
  timeouts : list (Z * TimeoutCallback);
  intervals : list (Z * IntervalCallback);
  requests : list Request;
  pending : list Pending;
  console : list ConsoleLine;
  next_node : nat;
  page_listeners : bool;
  debugToggle_listener : bool;
  window_listeners : bool
}.

(** The [debug] object. *)
Record Debug : Type := {
  enabled : bool;
  logQueue : list LogEntry.t;
  maxLogEntries : Z
}.

Record World : Type := {
  debug_object : Debug;
  debug_dom : DebugDom;
  upload_dom : UploadDom;
  chat_dom : ChatDom;
  browser : Browser;
  currentFile : option File
}.

(** The [ErrorEvent] the browser hands the [error] listener of [window]
    for an exception no callback caught. *)
Record ErrorEvent : Type := {
  event_message : jsstring;
  filename : jsstring;
  lineno : Z;
  colno : Z;
  error_stack : JsValue
}.

(** What a callback takes from outside the script while it runs: the clock
    of [new Date()]; [window.performance.memory] where it exists, as
    [(usedJSHeapSize, totalJSHeapSize, jsHeapSizeLimit)]; the text the
    engine gives a [TypeError]; the markdown-it instance [md], whose
    [render] maps a string to markup and throws on anything else; the HTML
    parser on the badge of a file name; and the event the browser makes of
    an uncaught exception with a given message. *)
Record Env : Type := {
  now : Z;
  performance_memory : option (Z * Z * Z);
  type_error_message : jsstring;
  md_render : jsstring -> jsstring;
  md_input_error : jsstring;
  parse_file_info : jsstring -> BadgeDom;
  uncaught : jsstring -> ErrorEvent
}.

(** ** Callbacks as state transformers that may throw *)

Inductive Completion (A : Type) : Type :=
| Normal (value : A)
| Throw (message : jsstring).
Arguments Normal {A} value.
Arguments Throw {A} message.

Definition JS (A : Type) : Type := Env -> World -> Completion A * World.

Definition ret {A} (a : A) : JS A := fun _ w => (Normal a, w).

Definition bind {A B} (m : JS A) (f : A -> JS B) : JS B :=
  fun env w =>
    match m env w with
    | (Normal a, w') => f a env w'
    | (Throw message, w') => (Throw message, w')
    end.

Definition throw {A} (message : jsstring) : JS A := fun _ w => (Throw message, w).

(** [try { body } catch (e) { handler(e.message) }], and a promise chain
    [....then(body).catch(handler)]. *)
Definition try_catch {A} (body : JS A) (handler : jsstring -> JS A) : JS A :=
  fun env w =>
    match body env w with
    | (Normal a, w') => (Normal a, w')
    | (Throw message, w') => handler message env w'
    end.

Definition gets {A} (f : World -> A) : JS A := fun _ w => (Normal (f w), w).

Definition modify (f : World -> World) : JS unit := fun _ w => (Normal tt, f w).

Definition ask {A} (f : Env -> A) : JS A := fun env w => (Normal (f env), w).

Definition exec {A} (m : JS A) (env : Env) (w : World) : World := snd (m env w).

Declare Scope js_scope.
Delimit Scope js_scope with js.
Notation "x <- m ;; k" := (bind m (fun x => k))
  (at level 61, m at next level, right associativity) : js_scope.
Notation "m ;; k" := (bind m (fun _ => k))
  (at level 61, right associativity) : js_scope.
Local Open Scope js_scope.

(** [document.createElement] for a node the script keeps a reference to:
    the node gets the next number. *)
Definition createElement : JS nat :=
  n <- gets (fun w => next_node (browser w)) ;;
  modify (fun w => w <| browser -> next_node := S n |>) ;;
  ret n.

(** [fetch]: the request goes out and its continuation waits. *)
Definition fetch (r : Request) (p : Pending) : JS unit :=
  modify (fun w => w <| browser -> requests ::= fun l => l ++ [r] |>
                     <| browser -> pending ::= fun l => l ++ [p] |>).

Definition setInterval (callback : IntervalCallback) (delay : Z) : JS unit :=
  modify (fun w => w <| browser -> intervals ::= fun l => l ++ [(delay, callback)] |>).

Definition setTimeout (callback : TimeoutCallback) (delay : Z) : JS unit :=
  modify (fun w => w <| browser -> timeouts ::= fun l => l ++ [(delay, callback)] |>).

Definition console_call (level : ConsoleLevel) (timestamp : option Z)
    (message : jsstring) (arg : JsValue) : JS unit :=
  modify (fun w => w <| browser -> console ::= fun l =>
    l ++ [{| console_level := level; console_timestamp := timestamp;
             console_message := message; console_arg := arg |}] |>).

(** [when c m] is [if (c) { m }]. *)
Definition when (c : bool) (m : JS unit) : JS unit := if c then m else ret tt.

(** ** The [debug] object *)

Module debug.

Definition k : Z := 1024.

Definition sizes : list jsstring := [lit "Bytes"; lit "KB"; lit "MB"; lit "GB"].

(** [Math.floor(Math.log(bytes) / Math.log(k))], for [bytes] an integer.
    [None] stands for [NaN], the logarithm of a negative number.  For a
    positive integer the quotient of the two binary64 logarithms is taken
    as the real number it approximates, the logarithm of [bytes] in base
    [k]; its floor is the position of the highest bit of [bytes] divided
    by ten, [k] being [2^10] (see [unit_index_spec]).  The logarithm of 0
    is never asked for: [formatBytes] returns before.  Below [2^40] the
    floor of the binary64 quotient is this index.  Far beyond, the
    binary64 quotient can reach the next integer just below a power of
    1024 (at [2^50 - 1] it is 5, the index here 4); the unit read from
    [sizes] is "undefined" either way. *)
Definition unit_index (bytes : Z) : option Z :=
  if bytes <? 0 then None else Some (Z.log2 bytes / Z.log2 k).

(** [x.toFixed(2)] for [x = num / den >= 0], as a count of hundredths: the
    integer [n] with [n / 100] nearest to [x], the larger one on a tie.
    Dividing an integer below [2^53] by a power of two is exact in binary64,
    so [x] is the rational [num / den] itself. *)
Definition toFixed2 (num den : Z) : Z :=
  (2 * 100 * num + den) / (2 * den).

(** [parseFloat(s) + ''] for the [toFixed(2)] text of [n] hundredths: the
    number is printed back in its shortest form, that is without the zeros
    that end the fraction. *)
Definition hundredths_text (n : Z) : jsstring :=
  let whole := n / 100 in
  let frac := n mod 100 in
  if frac =? 0 then decimal whole
  else if frac mod 10 =? 0 then decimal whole ++ lit "." ++ decimal (frac / 10)
  else decimal whole ++ lit "." ++ decimal (frac / 10) ++ decimal (frac mod 10).

(** [sizes[i]]: [undefined] outside the table. *)
Definition sizes_at (i : Z) : option jsstring :=
  if i <? 0 then None else nth_error sizes (Z.to_nat i).

(** String concatenation turns [undefined] into the text "undefined". *)
Definition text_of (u : option jsstring) : jsstring :=
  match u with Some s => s | None => lit "undefined" end.

(** The part of [formatBytes] after the zero guard. *)
Definition scaled (bytes : Z) : jsstring :=
  match unit_index bytes with
  | None => lit "NaN" ++ lit " " ++ text_of None
  | Some i => hundredths_text (toFixed2 bytes (k ^ i)) ++ lit " " ++ text_of (sizes_at i)
  end.

Definition formatBytes (bytes : Z) : jsstring :=
  if bytes =? 0 then lit "0 Bytes" else scaled bytes.

(** The text that follows the first space of a formatted size. *)
Fixpoint unit_part (s : jsstring) : jsstring :=
  match s with
  | [] => []
  | c :: s' => if (c =? 32)%N then s' else unit_part s'
  end.

(** [String.prototype.toUpperCase] on the letters a-z. *)
Definition toUpperCase (s : jsstring) : jsstring :=
  map (fun c => if ((97 <=? c) && (c <=? 122))%N then (c - 32)%N else c) s.

Definition type_name (t : LogType) : jsstring :=
  match t with
  | info => lit "info"
  | warn_t => lit "warn"
  | error_t => lit "error"
  end.

Definition formatSystemStatus (data : StatusDoc) : SystemStatusHtml :=
  {| status_environment :=
       if truthy (flask_env data) then flask_env data else lit "development";
     status_debug_mode := ENABLED data;
     status_dataframe := df_info_shape data |}.

Definition formatPerformanceMetrics (data : StatusDoc) : PerformanceHtml :=
  {| metric_memory := formatBytes (used data);
     metric_python := firstWord (python_version data);
     metric_chat_messages :=
       if chat_history_length data =? 0 then None
       else Some (chat_history_length data) |}.

(** [fetch('/debug/status')]; the two [then] and the [catch] are
    [updateSystemStatus_settled]. *)
Definition updateSystemStatus : JS unit :=
  fetch GetDebugStatus PendingStatus.

Definition updateSystemStatus_settled (o : Outcome StatusDoc) : JS unit :=
  try_catch
    (data <- match o with
             | NetworkFailure message => throw message
             | ParseFailure ok message =>
                 if ok then throw message
                 else throw (lit "Debug status request failed")
             | Json ok body =>
                 if ok then ret body
                 else throw (lit "Debug status request failed")
             end ;;
     modify (fun w => w <| debug_dom -> systemStatus ::=
       option_map (fun _ => StatusRendered (formatSystemStatus data)) |>) ;;
     modify (fun w => w <| debug_dom -> performanceMetrics ::=
       option_map (fun _ => Some (formatPerformanceMetrics data)) |>))
    (fun message =>
       console_call console_error None (lit "Debug status error:") (JString message) ;;
       modify (fun w => w <| debug_dom -> systemStatus ::=
         option_map (fun _ => StatusErrorBox message) |>)).

(** The click listener of [#debugToggle]. *)
Definition debugToggle_click : JS unit :=
  modify (fun w => w <| debug_dom -> debugPanel_show ::= negb |>) ;;
  shown <- gets (fun w => debugPanel_show (debug_dom w)) ;;
  when shown updateSystemStatus.

(** The callback of the 5000 ms interval. *)
Definition pollSystemStatus : JS unit :=
  shown <- gets (fun w => debugPanel_show (debug_dom w)) ;;
  when shown updateSystemStatus.

Definition setupDebugPanel : JS unit :=
  toggle <- gets (fun w => debugToggle (debug_dom w)) ;;
  panel <- gets (fun w => debugPanel (debug_dom w)) ;;
  when (toggle && panel)
    (modify (fun w => w <| browser -> debugToggle_listener := true |>) ;;
     (* Initialize system status updates *)
     updateSystemStatus ;;
     setInterval PollSystemStatus 5000).

Definition formatLogEntries : JS (list LogEntryHtml) :=
  queue <- gets (fun w => logQueue (debug_object w)) ;;
  ret (map (fun entry =>
         {| log_time := LogEntry.timestamp entry;
            log_type := LogEntry.type entry;
            log_type_upper := toUpperCase (type_name (LogEntry.type entry));
            log_message := LogEntry.message entry;
            log_data := if toBoolean (LogEntry.data entry)
                        then Some (LogEntry.data entry) else None |}) queue).

Definition addLogEntry (entry : LogEntry.t) : JS unit :=
  modify (fun w => w <| debug_object -> logQueue ::= cons entry |>) ;;
  len <- gets (fun w => Z.of_nat (List.length (logQueue (debug_object w)))) ;;
  max <- gets (fun w => maxLogEntries (debug_object w)) ;;
  when (len >? max)
    (modify (fun w => w <| debug_object -> logQueue ::= @removelast _ |>)) ;;
  logsContainer <- gets (fun w => recentLogs (debug_dom w)) ;;
  match logsContainer with
  | Some _ =>
      html <- formatLogEntries ;;
      modify (fun w => w <| debug_dom -> recentLogs := Some html |>)
  | None => ret tt
  end.

(** A default parameter [= null] replaces an argument that is [undefined]. *)
Definition default_null (v : JsValue) : JsValue :=
  match v with JUndefined => JNull | _ => v end.

Definition log (message : jsstring) (data : JsValue) : JS unit :=
  let data := default_null data in
  on <- gets (fun w => enabled (debug_object w)) ;;
  when on
    (timestamp <- ask now ;;
     addLogEntry (LogEntry.make info timestamp message data JUndefined) ;;
     console_call console_log (Some timestamp) message (orEmpty data)).

Definition error (message : jsstring) (error : JsValue) : JS unit :=
  let error := default_null error in
  timestamp <- ask now ;;
  addLogEntry (LogEntry.make error_t timestamp message JUndefined error) ;;
  console_call console_error (Some timestamp) message (orEmpty error).

Definition warn (message : jsstring) (data : JsValue) : JS unit :=
  let data := default_null data in
  timestamp <- ask now ;;
  addLogEntry (LogEntry.make warn_t timestamp message data JUndefined) ;;
  console_call console_warn (Some timestamp) message (orEmpty data).

Definition startPerformanceMonitoring : JS unit :=
  memory <- ask performance_memory ;;
  match memory with
  | Some _ => setInterval SampleMemory 10000
  | None => ret tt
  end.

(** The callback of the 10000 ms interval. *)
Definition sampleMemory : JS unit :=
  memory <- ask performance_memory ;;
  match memory with
  | Some (usedJSHeapSize, totalJSHeapSize, jsHeapSizeLimit) =>
      log (lit "Memory Usage")
        (JObject [(lit "usedHeapSize", JString (formatBytes usedJSHeapSize));
                  (lit "totalHeapSize", JString (formatBytes totalJSHeapSize));
                  (lit "limit", JString (formatBytes jsHeapSizeLimit))])
  | None => message <- ask type_error_message ;; throw message
  end.

Definition setupEventListeners : JS unit :=
  modify (fun w => w <| browser -> window_listeners := true |>).

(** The object the [error] listener of [window] builds from its event. *)
Definition error_event_payload (event : ErrorEvent) : JsValue :=
  JObject [(lit "message", JString (event_message event));
           (lit "source", JString (filename event));
           (lit "lineNo", JNumber (lineno event));
           (lit "colNo", JNumber (colno event));
           (lit "error", error_stack event)].

(** The listener of the [error] event of [window]; [event] is the object
    the listener builds from it. *)
Definition window_error (event : JsValue) : JS unit :=
  error (lit "Global error:") event.

(** The listener of [unhandledrejection]. *)
Definition window_unhandledrejection (reason : JsValue) : JS unit :=
  error (lit "Unhandled Promise rejection:") reason.

Definition init : JS unit :=
  on <- gets (fun w => enabled (debug_object w)) ;;
  when on
    (setupDebugPanel ;;
     startPerformanceMonitoring ;;
     setupEventListeners).

End debug.

(** ** The handlers installed on [DOMContentLoaded] *)

(** [response.json()] at the head of a chain: a rejected request or an
    unparsable body rejects the chain with its message. *)
Definition response_json {B} (o : Outcome B) : JS B :=
  match o with
  | NetworkFailure message => throw message
  | ParseFailure _ message => throw message
  | Json _ body => ret body
  end.

(** [if (data.error) { throw new Error(data.error); }] *)
Definition throw_if_error (error : option jsstring) : JS unit :=
  match error with
  | Some message => when (truthy message) (throw message)
  | None => ret tt
  end.

(** [getElementById('loadingSpinner').remove()] on the drop zone: the first
    element with that id in document order goes, be it a spinner or an
    element inside a badge that comes before. *)
Fixpoint remove_first_spinner (children : list DropChild) : list DropChild :=
  match children with
  | [] => []
  | LoadingSpinner :: rest => rest
  | FileInfo fileName (S ids) listener :: rest => FileInfo fileName ids listener :: rest
  | c :: rest => c :: remove_first_spinner rest
  end.

Fixpoint remove_first_file_info (children : list DropChild) : list DropChild :=
  match children with
  | [] => []
  | FileInfo _ _ _ :: rest => rest
  | c :: rest => c :: remove_first_file_info rest
  end.

Definition is_node (n : nat) (c : ChatChild) : bool :=
  match c with
  | MessageDiv m _ _ => Nat.eqb m n
  | WelcomeMessage => false
  end.

(** [node.remove()] of a chat child. *)
Definition remove_chat_node (n : nat) : JS unit :=
  modify (fun w => w <| chat_dom -> chatMessages ::=
    filter (fun c => negb (is_node n c)) |>).

Definition showNotification (message type : jsstring) : JS unit :=
  notification <- createElement ;;
  modify (fun w => w <| browser -> notifications ::= fun l => l ++
    [{| notification_node := notification;
        alert_class := lit "alert alert-"
          ++ (if jsstring_eqb type (lit "error") then lit "danger" else lit "success")
          ++ lit " notification";
        textContent := message;
        animation := fadeIn |}] |>) ;;
  setTimeout (NotificationFadeOut notification) 3000.

(** The two nested timeout callbacks of [showNotification]. *)
Definition notification_fadeOut (n : nat) : JS unit :=
  modify (fun w => w <| browser -> notifications ::=
    map (fun t => if Nat.eqb (notification_node t) n
                  then t <| animation := fadeOut |> else t) |>) ;;
  setTimeout (NotificationRemove n) 300.

Definition notification_remove (n : nat) : JS unit :=
  modify (fun w => w <| browser -> notifications ::=
    filter (fun t => negb (Nat.eqb (notification_node t) n)) |>).

Definition showLoadingSpinner : JS unit :=
  modify (fun w => w <| upload_dom -> dropZone ::= fun l => l ++ [LoadingSpinner] |>).

(** [getElementById('loadingSpinner')] finds the first element with that
    id, if there is one; the elements the script and the file names put
    into the drop zone are the ones that carry it. *)
Definition hideLoadingSpinner : JS unit :=
  modify (fun w => w <| upload_dom -> dropZone ::= remove_first_spinner |>).

Definition deleteFile : JS unit :=
  (* Reset the interface *)
  modify (fun w => w <| upload_dom -> statsSection_d_none := true |>
                     <| chat_dom -> queryInput_disabled := true |>
                     <| chat_dom -> queryBtn_disabled := true |>
                     <| chat_dom -> clearChat_disabled := true |>) ;;
  (* Clear the file input *)
  modify (fun w => w <| upload_dom -> csvFile_value := [] |>
                     <| currentFile := None |>) ;;
  (* Remove file info *)
  modify (fun w => w <| upload_dom -> dropZone ::= remove_first_file_info |>) ;;
  (* Clear chat messages *)
  modify (fun w => w <| chat_dom -> chatMessages := [WelcomeMessage] |>) ;;
  showNotification (lit "File deleted successfully") (lit "success").

(** [data.stats.rows] throws a [TypeError] when [stats] is missing; the
    class of [statsSection] has changed by then.  The badge is built from
    the file name by [innerHTML] and appended; where the name has swallowed
    the button, [querySelector('.delete-file')] is [null] and adding the
    listener throws a [TypeError], after the badge is in place. *)
Definition handleUploadSuccess (data : UploadBody) (fileName : jsstring) : JS unit :=
  modify (fun w => w <| upload_dom -> statsSection_d_none := false |>) ;;
  match stats data with
  | None => message <- ask type_error_message ;; throw message
  | Some (rows, columns) =>
      modify (fun w => w <| upload_dom -> rowCount := rows |>
                         <| upload_dom -> colCount := columns |>
                         <| upload_dom -> previewContent := preview data |>) ;;
      (* Enable chat interface *)
      modify (fun w => w <| chat_dom -> queryInput_disabled := false |>
                         <| chat_dom -> queryBtn_disabled := false |>
                         <| chat_dom -> clearChat_disabled := false |>) ;;
      (* Add file info and delete button *)
      fileInfo <- ask (fun env => parse_file_info env fileName) ;;
      modify (fun w => w <| upload_dom -> dropZone ::= remove_first_file_info |>
                         <| upload_dom -> dropZone ::= fun l => l ++
                              [FileInfo fileName (injected_spinner_ids fileInfo)
                                 (delete_button fileInfo)] |>) ;;
      (* Add delete handler *)
      (if delete_button fileInfo then ret tt
       else message <- ask type_error_message ;; throw message) ;;
      showNotification (lit "File uploaded successfully!") (lit "success")
  end.

(** [handleFile] up to and including the call of [fetch]. *)
Definition handleFile (file : option File) : JS unit :=
  match file with
  | None => showNotification (lit "Please select a CSV file") (lit "error")
  | Some f =>
      if negb (endsWith (name f) (lit ".csv")) then
        showNotification (lit "Please select a CSV file") (lit "error")
      else
        showLoadingSpinner ;;
        modify (fun w => w <| currentFile := Some f |>) ;;
        fetch (PostUpload f) (PendingUpload f)
  end.

(** The [then] and [catch] callbacks of the chain of [handleFile]. *)
Definition handleFile_settled (file : File) (o : Outcome UploadBody) : JS unit :=
  try_catch
    (data <- response_json o ;;
     hideLoadingSpinner ;;
     throw_if_error (upload_error data) ;;
     handleUploadSuccess data (name file))
    (fun message =>
       hideLoadingSpinner ;;
       showNotification message (lit "error")).

(** [content] is [None] when the caller passes [undefined].  [md.render]
    accepts strings only; [textContent] takes [undefined] as the empty
    string.  Scrolling is not modelled. *)
Definition addMessage (content : option jsstring) (type : jsstring) : JS unit :=
  messageDiv <- createElement ;;
  let className := lit "message " ++ type ++ lit "-message" in
  body <- (if jsstring_eqb type (lit "assistant") then
             (* For assistant messages, render as markdown *)
             match content with
             | Some s => render <- ask md_render ;; ret (InnerHTML (render s))
             | None => message <- ask md_input_error ;; throw message
             end
           else
             (* For user messages, keep as plain text *)
             ret (TextContent (match content with Some s => s | None => [] end))) ;;
  modify (fun w => w <| chat_dom -> chatMessages ::= fun l =>
    l ++ [MessageDiv messageDiv className body] |>).

Definition addTypingIndicator : JS nat :=
  indicator <- createElement ;;
  modify (fun w => w <| chat_dom -> chatMessages ::= fun l =>
    l ++ [MessageDiv indicator typingIndicator_className
            (InnerHTML typingIndicator_markup)] |>) ;;
  ret indicator.

(** [sendQuery] up to and including the call of [fetch]. *)
Definition sendQuery : JS unit :=
  query <- gets (fun w => trim (queryInput_value (chat_dom w))) ;;
  if negb (truthy query) then ret tt
  else
    (* Add user message *)
    addMessage (Some query) (lit "user") ;;
    modify (fun w => w <| chat_dom -> queryInput_value := [] |>) ;;
    (* Show typing indicator *)
    typingIndicator <- addTypingIndicator ;;
    (* Send query to server *)
    fetch (PostQuery query) (PendingQuery typingIndicator).

(** The [then] and [catch] callbacks of the chain of [sendQuery]. *)
Definition sendQuery_settled (typingIndicator : nat) (o : Outcome QueryBody) : JS unit :=
  try_catch
    (data <- response_json o ;;
     remove_chat_node typingIndicator ;;
     throw_if_error (query_error data) ;;
     addMessage (response data) (lit "assistant"))
    (fun message =>
       remove_chat_node typingIndicator ;;
       showNotification message (lit "error")).

Definition clearChat_click : JS unit :=
  modify (fun w => w <| chat_dom -> chatMessages := [] |>).

Definition queryInput_keypress (key : jsstring) : JS unit :=
  when (jsstring_eqb key (lit "Enter")) sendQuery.

(** The [DOMContentLoaded] listener: [debug.init()], then the listeners
    of the page. *)
Definition onDOMContentLoaded : JS unit :=
  debug.init ;;
  modify (fun w => w <| browser -> page_listeners := true |>).

(** ** Browser events *)

Inductive Response : Type :=
| StatusResponse (o : Outcome StatusDoc)
| UploadResponse (o : Outcome UploadBody)
| QueryResponse (o : Outcome QueryBody).

Inductive Event : Type :=
| DOMContentLoaded
| DebugToggleClick
| IntervalFires (n : nat)
| TimeoutFires (n : nat)
| DragEnterOrOver
| DragLeave
| Drop (file : option File)
| CsvFileChange (file : option File)
| DeleteFileClick
| QueryInputEdit (value : jsstring)
| QueryInputKeypress (key : jsstring)
| QueryBtnClick
| ClearChatClick
| RequestSettles (n : nat) (r : Response)
| WindowError (event : JsValue)
| UnhandledRejection (reason : JsValue).

Fixpoint remove_nth {A} (n : nat) (l : list A) : list A :=
  match n, l with
  | _, [] => []
  | O, _ :: l' => l'
  | S n', x :: l' => x :: remove_nth n' l'
  end.

(** A badge in the drop zone has the click listener [deleteFile]. *)
Definition has_file_info (children : list DropChild) : bool :=
  existsb (fun c => match c with
                    | FileInfo _ _ listener => listener
                    | LoadingSpinner => false
                    end) children.

(** The listener an event reaches.  A listener runs once it has been
    added; a disabled control fires no click or key event; a timeout fires
    once; a response settles the chain that waits for it. *)
Definition dispatch (e : Event) : JS unit :=
  match e with
  | DOMContentLoaded =>
      wired <- gets (fun w => page_listeners (browser w)) ;;
      when (negb wired) onDOMContentLoaded
  | DebugToggleClick =>
      wired <- gets (fun w => debugToggle_listener (browser w)) ;;
      when wired debug.debugToggle_click
  | IntervalFires n =>
      timer <- gets (fun w => nth_error (intervals (browser w)) n) ;;
      match timer with
      | Some (_, PollSystemStatus) => debug.pollSystemStatus
      | Some (_, SampleMemory) => debug.sampleMemory
      | None => ret tt
      end
  | TimeoutFires n =>
      timer <- gets (fun w => nth_error (timeouts (browser w)) n) ;;
      modify (fun w => w <| browser -> timeouts ::= remove_nth n |>) ;;
      match timer with
      | Some (_, NotificationFadeOut node) => notification_fadeOut node
      | Some (_, NotificationRemove node) => notification_remove node
      | None => ret tt
      end
  | DragEnterOrOver =>
      wired <- gets (fun w => page_listeners (browser w)) ;;
      when wired (modify (fun w => w <| upload_dom -> drag_over := true |>))
  | DragLeave =>
      wired <- gets (fun w => page_listeners (browser w)) ;;
      when wired (modify (fun w => w <| upload_dom -> drag_over := false |>))
  | Drop file =>
      wired <- gets (fun w => page_listeners (browser w)) ;;
      when wired
        (modify (fun w => w <| upload_dom -> drag_over := false |>) ;;
         handleFile file)
  | CsvFileChange file =>
      modify (fun w => w <| upload_dom -> csvFile_value :=
        match file with Some f => lit "C:\fakepath\" ++ name f | None => [] end |>) ;;
      wired <- gets (fun w => page_listeners (browser w)) ;;
      when wired (handleFile file)
  | DeleteFileClick =>
      wired <- gets (fun w => page_listeners (browser w)) ;;
      shown <- gets (fun w => has_file_info (dropZone (upload_dom w))) ;;
      when (wired && shown) deleteFile
  | QueryInputEdit value =>
      disabled <- gets (fun w => queryInput_disabled (chat_dom w)) ;;
      when (negb disabled)
        (modify (fun w => w <| chat_dom -> queryInput_value := value |>))
  | QueryInputKeypress key =>
      wired <- gets (fun w => page_listeners (browser w)) ;;
      disabled <- gets (fun w => queryInput_disabled (chat_dom w)) ;;
      when (wired && negb disabled) (queryInput_keypress key)
  | QueryBtnClick =>
      wired <- gets (fun w => page_listeners (browser w)) ;;
      disabled <- gets (fun w => queryBtn_disabled (chat_dom w)) ;;
      when (wired && negb disabled) sendQuery
  | ClearChatClick =>
      wired <- gets (fun w => page_listeners (browser w)) ;;
      disabled <- gets (fun w => clearChat_disabled (chat_dom w)) ;;
      when (wired && negb disabled) clearChat_click
  | RequestSettles n r =>
      waiting <- gets (fun w => nth_error (pending (browser w)) n) ;;
      match waiting, r with
      | Some PendingStatus, StatusResponse o =>
          modify (fun w => w <| browser -> pending ::= remove_nth n |>) ;;
          debug.updateSystemStatus_settled o
      | Some (PendingUpload file), UploadResponse o =>
          modify (fun w => w <| browser -> pending ::= remove_nth n |>) ;;
          handleFile_settled file o
      | Some (PendingQuery typingIndicator), QueryResponse o =>
          modify (fun w => w <| browser -> pending ::= remove_nth n |>) ;;
          sendQuery_settled typingIndicator o
      | _, _ => ret tt
      end
  | WindowError event =>
      wired <- gets (fun w => window_listeners (browser w)) ;;
      when wired (debug.window_error event)
  | UnhandledRejection reason =>
      wired <- gets (fun w => window_listeners (browser w)) ;;
      when wired (debug.window_unhandledrejection reason)
  end.

(** One turn of the event loop.  An exception no callback catches becomes
    an [error] event of [window]. *)
Definition step (env : Env) (e : Event) (w : World) : World :=
  match dispatch e env w with
  | (Normal _, w') => w'
  | (Throw message, w') =>
      if window_listeners (browser w')
      then exec (debug.window_error (debug.error_event_payload (uncaught env message))) env w'
      else w'
  end.

Fixpoint run (events : list (Env * Event)) (w : World) : World :=
  match events with
  | [] => w
  | (env, e) :: rest => run rest (step env e w)
  end.

(** ** Observations on a world *)

Definition is_status_request (r : Request) : bool :=
  match r with GetDebugStatus => true | _ => false end.

(** How many [/debug/status] requests have gone out so far. *)
Definition status_fetches (w : World) : nat :=
  List.length (filter is_status_request (requests (browser w))).

Definition is_spinner (c : DropChild) : bool :=
  match c with LoadingSpinner => true | FileInfo _ _ _ => false end.

Definition count_spinners (children : list DropChild) : nat :=
  List.length (filter is_spinner children).

(** How many loading spinners the page shows. *)
Definition spinners (w : World) : nat :=
  count_spinners (dropZone (upload_dom w)).

(** ** A page as it may be served *)

(** The page before [DOMContentLoaded]: the debug panel present and not
    shown, the chat controls disabled, nothing uploaded. *)
Definition served : World :=
  {| debug_object := {| enabled := true; logQueue := []; maxLogEntries := 100 |};
     debug_dom := {| debugToggle := true; debugPanel := true; debugPanel_show := false;
                     systemStatus := Some StatusInitial;
                     performanceMetrics := Some None;
                     recentLogs := Some [] |};
     upload_dom := {| drag_over := false; dropZone := []; csvFile_value := [];
                      statsSection_d_none := true; rowCount := 0; colCount := 0;
                      previewContent := [] |};
     chat_dom := {| queryInput_value := []; queryInput_disabled := true;
                    queryBtn_disabled := true; clearChat_disabled := true;
                    chatMessages := [WelcomeMessage] |};
     browser := {| notifications := []; timeouts := []; intervals := [];
                   requests := []; pending := []; console := []; next_node := 0;
                   page_listeners := false; debugToggle_listener := false;
                   window_listeners := false |};
     currentFile := None |}.

(** The badge of a file name without markup. *)
Definition plain_badge : BadgeDom :=
  {| injected_spinner_ids := 0; delete_button := true |}.

(** The event of an uncaught exception, as a browser may fill it. *)
Definition uncaught_in_main (message : jsstring) : ErrorEvent :=
  {| event_message := lit "Uncaught " ++ message;
     filename := lit "/static/js/main.js"; lineno := 1; colno := 1;
     error_stack := JString message |}.

(** A browser without [performance.memory], at instant [t]; [md.render]
    is left as the identity, and the file names it meets hold no markup. *)
Definition env_at (t : Z) : Env :=
  {| now := t; performance_memory := None;
     type_error_message := lit "TypeError";
     md_render := fun s => s;
     md_input_error := lit "Input data should be a String";
     parse_file_info := fun _ => plain_badge;
     uncaught := uncaught_in_main |}.

(** ** Calls of the logger *)

(** A call of one of the three logging methods of [debug]. *)
Inductive LogCall : Type :=
| call_log (message : jsstring) (data : JsValue)
| call_error (message : jsstring) (error : JsValue)
| call_warn (message : jsstring) (data : JsValue).

Definition log_call (c : LogCall) : JS unit :=
  match c with
  | call_log message data => debug.log message data
  | call_error message error => debug.error message error
  | call_warn message data => debug.warn message data
  end.

(** A series of calls, each with what the browser shows it. *)
Fixpoint log_calls (calls : list (Env * LogCall)) (w : World) : World :=
  match calls with
  | [] => w
  | (env, c) :: rest => log_calls rest (exec (log_call c) env w)
  end.

(** The entry a call hands to [addLogEntry]; [debug.log] makes none when
    [debug.enabled] is off. *)
Definition entry_of (on : bool) (call : Env * LogCall) : option LogEntry.t :=
  let (env, c) := call in
  match c with
  | call_log message data =>
      if on then Some (LogEntry.make info (now env) message (debug.default_null data) JUndefined)
      else None
  | call_error message error =>
      Some (LogEntry.make error_t (now env) message JUndefined (debug.default_null error))
  | call_warn message data =>
      Some (LogEntry.make warn_t (now env) message (debug.default_null data) JUndefined)
  end.

(** The entries a series of calls inserts, oldest first. *)
Fixpoint entries_of (on : bool) (calls : list (Env * LogCall)) : list LogEntry.t :=
  match calls with
  | [] => []
  | call :: rest =>
      match entry_of on call with
      | Some entry => entry :: entries_of on rest
      | None => entries_of on rest
      end
  end.

(** The served page after loading, an upload of data.csv that succeeded
    and the question "hi": the typing indicator is node 2 and the query
    waits for its response. *)
Definition asking : World :=
  run [(env_at 0, DOMContentLoaded);
       (env_at 1, Drop (Some {| name := lit "data.csv" |}));
       (env_at 2, RequestSettles 1 (UploadResponse
          (Json true {| upload_error := None; stats := Some (10, 3);
                        preview := lit "<table></table>" |})));
       (env_at 3, QueryInputEdit (lit "hi"));
       (env_at 4, QueryBtnClick)] served.

(** The served page after loading. *)
Definition loaded : World := step (env_at 0) DOMContentLoaded served.

(** The loaded page after the debug panel was opened and closed again. *)
Definition closed_again : World :=
  run [(env_at 1, DebugToggleClick); (env_at 2, DebugToggleClick)] loaded.

(** Three ticks of the poll interval and a drop of a file. *)
Definition ticks_and_drop : list (Env * Event) :=
  [(env_at 5, IntervalFires 0); (env_at 6, Drop (Some {| name := lit "data.csv" |}));
   (env_at 10, IntervalFires 0); (env_at 15, IntervalFires 0)].

(** 101 warnings, at the instants 0 to 100. *)
Definition warnings_101 : list (Env * LogCall) :=
  map (fun n => (env_at (Z.of_nat n), call_warn (lit "slow") JNull)) (seq 0 101).

(** ** Predicates of the statements *)

(** The toast [showNotification] makes for an error. *)
Definition error_toast (node : nat) (message : jsstring) : Notification :=
  {| notification_node := node;
     alert_class := lit "alert alert-danger notification";
     textContent := message;
     animation := fadeIn |}.

(** The world after [showNotification message 'error']: one more toast,
    its timeout, and the next node number. *)
Definition with_error_toast (message : jsstring) (w : World) : World :=
  w <| browser -> next_node ::= S |>
    <| browser -> notifications ::= fun l =>
         l ++ [error_toast (next_node (browser w)) message] |>
    <| browser -> timeouts ::= fun l =>
         l ++ [(3000, NotificationFadeOut (next_node (browser w)))] |>.

Definition is_upload (p : Pending) : bool :=
  match p with PendingUpload _ => true | _ => false end.

(** How many upload requests wait for their response. *)
Definition uploads_in_flight (w : World) : nat :=
  List.length (filter is_upload (pending (browser w))).

(** The three chat controls are all disabled, or all enabled. *)
Definition chat_controls_disabled (b : bool) (w : World) : Prop :=
  queryInput_disabled (chat_dom w) = b /\
  queryBtn_disabled (chat_dom w) = b /\
  clearChat_disabled (chat_dom w) = b.

(** What the page owes a query response that reports [message]: the
    typing indicator is gone, [message] is shown in an error toast, and
    the transcript is what it was without the indicator, so that no
    assistant message has been added. *)
Definition error_response_handled (env : Env) (w : World) (typingIndicator : nat)
    (ok : bool) (body : QueryBody) (message : jsstring) : Prop :=
  let w' := exec (sendQuery_settled typingIndicator (Json ok body)) env w in
  existsb (is_node typingIndicator) (chatMessages (chat_dom w')) = false /\
  notifications (browser w') =
    notifications (browser w) ++ [error_toast (next_node (browser w)) message] /\
  chatMessages (chat_dom w')
    = filter (fun c => negb (is_node typingIndicator c)) (chatMessages (chat_dom w)).

(** A [/debug/status] request goes out in this turn only if the panel is
    shown when the turn ends. *)
Definition fetch_only_while_visible (env : Env) (e : Event) (w : World) : Prop :=
  status_fetches (step env e w) <> status_fetches w ->
  debugPanel_show (debug_dom (step env e w)) = true.

Definition is_toggle_click (e : Event) : bool :=
  match e with DebugToggleClick => true | _ => false end.

(** The string a node hands to the HTML parser, if any. *)
Definition parsed_markup (c : NodeContent) : option jsstring :=
  match c with
  | InnerHTML markup => Some markup
  | TextContent _ => None
  end.

Definition no_space (s : jsstring) : Prop := Forall (fun c => c <> 32%N) s.

(** ** Further observations *)

Definition is_file_info (c : DropChild) : bool :=
  match c with FileInfo _ _ _ => true | LoadingSpinner => false end.

(** How many file badges the drop zone shows. *)
Definition file_infos (w : World) : nat :=
  List.length (filter is_file_info (dropZone (upload_dom w))).

Definition is_query_request (r : Request) : bool :=
  match r with PostQuery _ => true | _ => false end.

(** How many [/query] requests have gone out so far. *)
Definition query_fetches (w : World) : nat :=
  List.length (filter is_query_request (requests (browser w))).

Definition is_upload_response (e : Event) : bool :=
  match e with RequestSettles _ (UploadResponse _) => true | _ => false end.

Definition chat_node_below (n : nat) (c : ChatChild) : Prop :=
  match c with
  | WelcomeMessage => True
  | MessageDiv m _ _ => (m < n)%nat
  end.

(** Node numbers are handed out in order: every numbered node of the page
    has a number below the next one. *)
Definition nodes_numbered (w : World) : Prop :=
  Forall (chat_node_below (next_node (browser w))) (chatMessages (chat_dom w)) /\
  Forall (fun t => (notification_node t < next_node (browser w))%nat)
    (notifications (browser w)).

(** The toast [showNotification] makes for a success. *)
Definition success_toast (node : nat) (message : jsstring) : Notification :=
  {| notification_node := node;
     alert_class := lit "alert alert-success notification";
     textContent := message;
     animation := fadeIn |}.

(** The log queue is within its bound. *)
Definition queue_within_bound (w : World) : Prop :=
  Z.of_nat (List.length (logQueue (debug_object w))) <= maxLogEntries (debug_object w).

(** The served page with the [debug] object switched off, and with the
    debug panel element missing. *)
Definition served_debug_off : World := served <| debug_object -> enabled := false |>.

Definition served_without_panel : World := served <| debug_dom -> debugPanel := false |>.

(** 101 uncaught errors reported to the window, at the instants 0 to 100. *)
Definition window_errors_101 : list (Env * Event) :=
  map (fun n => (env_at (Z.of_nat n), WindowError (JString (lit "boom")))) (seq 0 101).

(** The message a chain is rejected with before its success handler runs:
    that of a rejected request, of an unparsable body, or of an [error]
    field that is truthy. *)
Definition rejection {B} (error_of : B -> option jsstring) (o : Outcome B) : option jsstring :=
  match o with
  | NetworkFailure message => Some message
  | ParseFailure _ message => Some message
  | Json _ body =>
      match error_of body with
      | Some message => if truthy message then Some message else None
      | None => None
      end
  end.

(** A browser that has [performance.memory], at instant [t]. *)
Definition env_with_memory (t : Z) : Env :=
  {| now := t; performance_memory := Some (1536, 1048576, 4294967296);
     type_error_message := lit "TypeError";
     md_render := fun s => s;
     md_input_error := lit "Input data should be a String";
     parse_file_info := fun _ => plain_badge;
     uncaught := uncaught_in_main |}.

(** The served page after loading in such a browser. *)
Definition loaded_with_memory : World :=
  step (env_with_memory 0) DOMContentLoaded served.

(** A status document as the server sends it. *)
Definition status_example : StatusDoc :=
  {| flask_env := lit "production"; python_version := lit "3.11.4 (main, Jun  7 2023)";
     ENABLED := true; used := 1536; df_info_shape := Some (10, 3);
     chat_history_length := 2 |}.

(** A file name that is markup: written into the badge by [innerHTML] it
    makes an element with the id of the loading spinner. *)
Definition markup_name : jsstring := lit "<span id=loadingSpinner>.csv".

(** A browser like [env_at], whose parser finds that element. *)
Definition env_markup (t : Z) : Env :=
  {| now := t; performance_memory := None;
     type_error_message := lit "TypeError";
     md_render := fun s => s;
     md_input_error := lit "Input data should be a String";
     parse_file_info := fun fileName =>
       if jsstring_eqb fileName markup_name
       then {| injected_spinner_ids := 1; delete_button := true |}
       else plain_badge;
     uncaught := uncaught_in_main |}.

(** The loaded page after the file of that name was uploaded with success
    and data.csv was sent: its request is in flight, its spinner shown. *)
Definition second_upload_sent : World :=
  run [(env_markup 1, Drop (Some {| name := markup_name |}));
       (env_markup 2, RequestSettles 1 (UploadResponse
          (Json true {| upload_error := None; stats := Some (10, 3);
                        preview := lit "<table></table>" |})));
       (env_markup 3, Drop (Some {| name := lit "data.csv" |}))] loaded.

(** A status document whose [flask_env] is empty. *)
Definition status_without_env : StatusDoc :=
  {| flask_env := []; python_version := lit "3.11.4 (main, Jun  7 2023)";
     ENABLED := false; used := 0; df_info_shape := None; chat_history_length := 0 |}.

(** The byte count is printed with one of the units of [sizes]. *)
Definition formats_with_a_unit (bytes : Z) : Prop :=
  In (debug.unit_part (debug.formatBytes bytes)) debug.sizes.

(** * Properties *)

(** ** Running a callback symbolically *)

Ltac destruct_world w :=
  destruct w as [[on queue max]
                 [toggle panel shown status metrics logs]
                 [over zone csv hidden rows cols prev]
                 [input input_off btn_off clear_off chat]
                 [toasts touts ivals reqs pend cons next wired twired wwired]
                 cur].

Ltac js_unfold :=
  unfold step, dispatch, exec,
    onDOMContentLoaded, queryInput_keypress, clearChat_click, sendQuery_settled,
    sendQuery, addTypingIndicator, addMessage, handleFile_settled, handleFile,
    handleUploadSuccess, deleteFile, hideLoadingSpinner, showLoadingSpinner,
    notification_remove, notification_fadeOut, showNotification, remove_chat_node,
    throw_if_error, response_json,
    debug.init, debug.window_unhandledrejection, debug.window_error,
    debug.setupEventListeners, debug.sampleMemory, debug.startPerformanceMonitoring,
    debug.warn, debug.error, debug.log, debug.addLogEntry, debug.formatLogEntries,
    debug.setupDebugPanel, debug.pollSystemStatus, debug.debugToggle_click,
    debug.updateSystemStatus_settled, debug.updateSystemStatus,
    console_call, setTimeout, setInterval, fetch, createElement,
    when, try_catch, bind, ret, throw, gets, modify, ask in *.

Ltac js_case :=
  first
    [ match goal with
      | |- context [match ?x with _ => _ end] =>
          lazymatch x with
          | context [match _ with _ => _ end] => fail
          | _ => destruct x eqn:?
          end
      end
    | match goal with
      | |- context [match ?x with _ => _ end] => destruct x eqn:?
      end ].

Ltac js_cbn :=
  cbn -[jsstring_eqb endsWith trim truthy has_file_info nth_error remove_nth
        filter map removelast Z.gtb Z.of_nat List.length app
        remove_first_spinner remove_first_file_info count_spinners].

Ltac js_cases := js_cbn; repeat (js_case; js_cbn).

(** ** Strings *)

Lemma jsstring_eqb_eq (a b : jsstring) : jsstring_eqb a b = true <-> a = b.
Proof.
  revert b; induction a as [|x a IH]; intros [|y b]; simpl; try (split; congruence).
  rewrite andb_true_iff, N.eqb_eq, IH. split.
  - intros [-> ->]; reflexivity.
  - intros H; inversion H; auto.
Qed.

(** [endsWith] holds exactly of the strings that are some prefix followed
    by the search string. *)
Lemma endsWith_spec (s suffix : jsstring) :
  endsWith s suffix = true <-> exists p, s = p ++ suffix.
Proof.
  unfold endsWith.
  destruct (Z.ltb_spec (Z.of_nat (List.length s) - Z.of_nat (List.length suffix)) 0) as [Hlt|Hge].
  - split; [discriminate|]. intros [p ->]. rewrite length_app in Hlt. lia.
  - rewrite jsstring_eqb_eq. split.
    + intros H.
      exists (firstn (Z.to_nat (Z.of_nat (List.length s) - Z.of_nat (List.length suffix))) s).
      rewrite <- H at 2. symmetry; apply firstn_skipn.
    + intros [p ->]. rewrite length_app.
      replace (Z.to_nat (Z.of_nat (List.length p + List.length suffix) - Z.of_nat (List.length suffix)))
        with (List.length p + 0)%nat by lia.
      rewrite skipn_app, Nat.add_0_r, skipn_all, Nat.sub_diag. reflexivity.
Qed.

Lemma trimStart_nil (s : jsstring) :
  trimStart s = [] <-> forallb isWhiteSpace s = true.
Proof.
  induction s as [|c s IH]; simpl; [tauto|].
  destruct (isWhiteSpace c); simpl; [exact IH|]. split; discriminate.
Qed.

(** The trimmed value is empty exactly when every code unit is white
    space. *)
Lemma trim_nil (s : jsstring) :
  trim s = [] <-> forallb isWhiteSpace s = true.
Proof.
  unfold trim. split.
  - intros H. apply trimStart_nil.
    assert (E : rev (rev (trimStart (rev (trimStart s)))) = rev []) by (f_equal; exact H).
    rewrite rev_involutive in E. simpl in E.
    apply trimStart_nil in E. rewrite forallb_forall in E.
    destruct (trimStart s) as [|c t] eqn:Ht; [reflexivity|].
    assert (Hc : isWhiteSpace c = true) by (apply E, in_rev; rewrite rev_involutive; left; reflexivity).
    clear E. exfalso. revert Ht Hc. clear. induction s as [|d s IH]; simpl; [discriminate|].
    destruct (isWhiteSpace d) eqn:Hd; [exact IH|]. intros [= -> _]. congruence.
  - intros H. apply trimStart_nil in H. rewrite H. reflexivity.
Qed.

(** ** [debug.formatBytes] *)

Section FormatBytes.
Import debug.

Lemma k_pow (i : Z) : 0 <= i -> k ^ i = 2 ^ (10 * i).
Proof. intros Hi. unfold k. change 1024 with (2 ^ 10). rewrite <- Z.pow_mul_r; lia. Qed.

(** The index the source computes is the floor of the logarithm of
    [bytes] in base [k]. *)
Lemma unit_index_spec (bytes : Z) :
  0 < bytes ->
  exists i, unit_index bytes = Some i /\ 0 <= i /\ k ^ i <= bytes < k ^ (i + 1).
Proof.
  intros Hpos. unfold unit_index.
  destruct (Z.ltb_spec bytes 0) as [?|_]; [lia|].
  change (Z.log2 k) with 10.
  pose proof (Z.log2_spec bytes Hpos) as [Hlo Hhi].
  pose proof (Z.log2_nonneg bytes) as Hl.
  set (l := Z.log2 bytes) in *.
  pose proof (Z.div_mod l 10 ltac:(lia)) as Hdm.
  pose proof (Z.mod_pos_bound l 10 ltac:(lia)) as Hr.
  assert (Hi : 0 <= l / 10) by (apply Z.div_pos; lia).
  exists (l / 10). split; [reflexivity|]. split; [exact Hi|].
  rewrite !k_pow by lia. split.
  - apply Z.le_trans with (2 ^ l); [|exact Hlo].
    apply Z.pow_le_mono_r; lia.
  - apply Z.lt_le_trans with (2 ^ Z.succ l); [exact Hhi|].
    apply Z.pow_le_mono_r; lia.
Qed.

(** The index is below four exactly for sizes below [k ^ 4]. *)
Lemma unit_index_small (bytes i : Z) :
  0 < bytes -> unit_index bytes = Some i -> (i <= 3 <-> bytes < k ^ 4).
Proof.
  intros Hpos Hi.
  destruct (unit_index_spec bytes Hpos) as (j & Hj & Hj0 & Hlo & Hhi).
  rewrite Hi in Hj; injection Hj as <-.
  split; intros H.
  - apply Z.lt_le_trans with (k ^ (i + 1)); [exact Hhi|].
    apply Z.pow_le_mono_r; unfold k; lia.
  - destruct (Z.le_gt_cases i 3) as [?|Hgt]; [assumption|].
    assert (k ^ 4 <= k ^ i) by (apply Z.pow_le_mono_r; unfold k; lia). lia.
Qed.

(** [toFixed2] is the nearest count of hundredths. *)
Lemma toFixed2_nearest (num den : Z) :
  0 < den ->
  2 * Z.abs (100 * num - toFixed2 num den * den) <= den.
Proof.
  intros Hden. unfold toFixed2.
  pose proof (Z.div_mod (2 * 100 * num + den) (2 * den) ltac:(lia)) as Hdm.
  pose proof (Z.mod_pos_bound (2 * 100 * num + den) (2 * den) ltac:(lia)) as Hr.
  nia.
Qed.

Lemma unit_part_after (num rest : jsstring) :
  no_space num -> unit_part (num ++ lit " " ++ rest) = rest.
Proof.
  induction 1 as [|c num Hc _ IH]; simpl; [reflexivity|].
  destruct (N.eqb_spec c 32); [contradiction|exact IH].
Qed.

Lemma no_space_digits (d : Decimal.uint) :
  no_space (lit (NilEmpty.string_of_uint d)).
Proof.
  induction d; simpl; constructor; try assumption; discriminate.
Qed.

Lemma no_space_decimal (n : Z) : no_space (decimal n).
Proof.
  unfold decimal, NilZero.string_of_uint.
  destruct (N.to_uint (Z.to_N n)) eqn:E; try rewrite <- E; try apply no_space_digits.
  repeat constructor; discriminate.
Qed.

Lemma no_space_app (a b : jsstring) : no_space a -> no_space b -> no_space (a ++ b).
Proof. intros; apply Forall_app; split; assumption. Qed.

Lemma no_space_hundredths (n : Z) : no_space (hundredths_text n).
Proof.
  unfold hundredths_text.
  destruct (n mod 100 =? 0); [apply no_space_decimal|].
  destruct (n mod 100 mod 10 =? 0);
    repeat apply no_space_app; try apply no_space_decimal;
    repeat constructor; discriminate.
Qed.

Lemma sizes_at_small (i : Z) :
  0 <= i <= 3 -> exists unit, sizes_at i = Some unit /\ In unit sizes.
Proof.
  intros Hi.
  assert (C : i = 0 \/ i = 1 \/ i = 2 \/ i = 3) by lia.
  destruct C as [-> | [-> | [-> | ->]]]; eexists; (split; [reflexivity|]); simpl; auto.
Qed.

Lemma sizes_at_large (i : Z) : 4 <= i -> sizes_at i = None.
Proof.
  intros Hi. unfold sizes_at.
  destruct (Z.ltb_spec i 0); [reflexivity|].
  apply nth_error_None. simpl. lia.
Qed.

Lemma undefined_not_a_size : ~ In (lit "undefined") sizes.
Proof. simpl. intros [H | [H | [H | [H | []]]]]; discriminate H. Qed.

Lemma formatBytes_nonzero (bytes : Z) : bytes <> 0 -> formatBytes bytes = scaled bytes.
Proof. intros H. unfold formatBytes. destruct (Z.eqb_spec bytes 0); [contradiction|reflexivity]. Qed.

Lemma unit_part_scaled (bytes i : Z) :
  unit_index bytes = Some i -> unit_part (scaled bytes) = text_of (sizes_at i).
Proof.
  intros Hi. unfold scaled. rewrite Hi.
  apply unit_part_after, no_space_hundredths.
Qed.

End FormatBytes.

(** C2, as the code has it: for byte counts below [1024 ^ 4] the byte
    formatter works on a base-1024 scale with the units Bytes, KB, MB and
    GB and two decimal places, zero being a case of its own: 0 gives
    "0 Bytes", 1024 gives "1 KB", 1536 gives "1.5 KB" and 1048576 gives
    "1 MB"; and every size from 1 to below [1024 ^ 4] is printed as the
    count [n] of hundredths nearest to [bytes / 1024 ^ i], followed by
    unit number [i], where [1024 ^ i <= bytes < 1024 ^ (i + 1)]. *)
Theorem formatBytes_base_1024 :
  debug.formatBytes 0 = lit "0 Bytes" /\
  debug.formatBytes 1024 = lit "1 KB" /\
  debug.formatBytes 1536 = lit "1.5 KB" /\
  debug.formatBytes 1048576 = lit "1 MB" /\
  forall bytes, 0 < bytes < debug.k ^ 4 ->
    exists i unit n,
      0 <= i /\ nth_error debug.sizes (Z.to_nat i) = Some unit /\
      debug.k ^ i <= bytes < debug.k ^ (i + 1) /\
      2 * Z.abs (100 * bytes - n * debug.k ^ i) <= debug.k ^ i /\
      debug.formatBytes bytes = debug.hundredths_text n ++ lit " " ++ unit.
Proof.
  do 4 (split; [reflexivity|]).
  intros bytes [Hpos Hlt].
  destruct (unit_index_spec bytes Hpos) as (i & Hi & Hi0 & Hlo & Hhi).
  assert (Hi3 : i <= 3) by (apply (unit_index_small bytes i Hpos Hi); exact Hlt).
  destruct (sizes_at_small i (conj Hi0 Hi3)) as (unit & Hu & _).
  exists i, unit, (debug.toFixed2 bytes (debug.k ^ i)).
  split; [exact Hi0|]. split.
  - unfold debug.sizes_at in Hu. destruct (Z.ltb_spec i 0); [lia|exact Hu].
  - split; [split; assumption|]. split.
    + apply toFixed2_nearest, Z.pow_pos_nonneg; [reflexivity|exact Hi0].
    + rewrite formatBytes_nonzero by lia. unfold debug.scaled. rewrite Hi, Hu. reflexivity.
Qed.

Lemma formatBytes_base_1024_witness :
  0 < 1234567 < debug.k ^ 4 /\
  exists i unit n,
    0 <= i /\ nth_error debug.sizes (Z.to_nat i) = Some unit /\
    debug.k ^ i <= 1234567 < debug.k ^ (i + 1) /\
    2 * Z.abs (100 * 1234567 - n * debug.k ^ i) <= debug.k ^ i /\
    debug.formatBytes 1234567 = debug.hundredths_text n ++ lit " " ++ unit.
Proof.
  split; [vm_compute; split; reflexivity|].
  apply (proj2 (proj2 (proj2 (proj2 formatBytes_base_1024))) 1234567).
  vm_compute; split; reflexivity.
Defined.

(** C2 as stated fails from [1024 ^ 4] bytes on: the byte count is not
    negative, the index is 4, [sizes] has no entry for it and the text
    reads "1 undefined", with none of the four units. *)
Lemma formatBytes_terabyte_counterexample :
  0 <= 1099511627776 /\
  debug.formatBytes 1099511627776 = lit "1 undefined" /\
  ~ formats_with_a_unit 1099511627776.
Proof.
  split; [discriminate|]. split; [reflexivity|].
  unfold formats_with_a_unit. change (debug.unit_part (debug.formatBytes 1099511627776))
    with (lit "undefined"). apply undefined_not_a_size.
Qed.

(** C10: the result of [formatBytes] carries one of the units Bytes, KB,
    MB, GB exactly for [0 <= bytes < 1024 ^ 4]; from [1024 ^ 4] on the
    index is at least 4, [sizes] has no such entry and the unit part reads
    "undefined"; the guard keeps only [bytes = 0] away from the logarithm:
    every other input, a negative one too, goes through [scaled]. *)
Theorem formatBytes_unit_only_below_k4 (bytes : Z) :
  (In (debug.unit_part (debug.formatBytes bytes)) debug.sizes <-> 0 <= bytes < debug.k ^ 4) /\
  (debug.k ^ 4 <= bytes ->
     exists i, debug.unit_index bytes = Some i /\ 4 <= i /\
               debug.sizes_at i = None /\
               debug.unit_part (debug.formatBytes bytes) = lit "undefined") /\
  (bytes <> 0 -> debug.formatBytes bytes = debug.scaled bytes) /\
  (bytes < 0 -> debug.formatBytes bytes = lit "NaN undefined").
Proof.
  assert (Hk4 : 0 < debug.k ^ 4) by reflexivity.
  assert (Hlarge : debug.k ^ 4 <= bytes ->
     exists i, debug.unit_index bytes = Some i /\ 4 <= i /\
               debug.sizes_at i = None /\
               debug.unit_part (debug.formatBytes bytes) = lit "undefined").
  { intros Hge.
    destruct (unit_index_spec bytes ltac:(lia)) as (i & Hi & Hi0 & Hlo & Hhi).
    assert (H4 : 4 <= i).
    { destruct (Z.le_gt_cases 4 i) as [?|Hgt]; [assumption|].
      assert (i <= 3) as Hle by lia.
      apply (unit_index_small bytes i ltac:(lia) Hi) in Hle. lia. }
    exists i. repeat split; try assumption.
    - apply sizes_at_large; exact H4.
    - rewrite formatBytes_nonzero by lia.
      rewrite (unit_part_scaled bytes i Hi), sizes_at_large by exact H4. reflexivity. }
  assert (Hneg : bytes < 0 -> debug.formatBytes bytes = lit "NaN undefined").
  { intros Hlt. rewrite formatBytes_nonzero by lia. unfold debug.scaled, debug.unit_index.
    destruct (Z.ltb_spec bytes 0); [reflexivity|lia]. }
  split; [|split; [exact Hlarge|split; [apply formatBytes_nonzero|exact Hneg]]].
  destruct (Z.lt_trichotomy bytes 0) as [Hlt | [-> | Hpos]].
  - rewrite (Hneg Hlt). split; [|lia].
    intros H. exfalso. apply undefined_not_a_size. exact H.
  - split; [intros _; split; [lia|exact Hk4]|]. intros _. simpl. auto.
  - destruct (Z.lt_ge_cases bytes (debug.k ^ 4)) as [Hsmall|Hbig].
    + split; [intros _; lia|]. intros _.
      destruct (unit_index_spec bytes Hpos) as (i & Hi & Hi0 & _).
      assert (Hi3 : i <= 3) by (apply (unit_index_small bytes i Hpos Hi); exact Hsmall).
      destruct (sizes_at_small i (conj Hi0 Hi3)) as (unit & Hu & Hin).
      rewrite formatBytes_nonzero by lia.
      rewrite (unit_part_scaled bytes i Hi), Hu. exact Hin.
    + destruct (Hlarge Hbig) as (i & _ & _ & _ & Hu). rewrite Hu.
      split; [|lia]. intros H. exfalso. apply undefined_not_a_size. exact H.
Qed.

Lemma formatBytes_unit_only_below_k4_witness :
  debug.k ^ 4 <= 1099511627776 /\
  exists i, debug.unit_index 1099511627776 = Some i /\ 4 <= i /\
            debug.sizes_at i = None /\
            debug.unit_part (debug.formatBytes 1099511627776) = lit "undefined".
Proof.
  split; [vm_compute; discriminate|].
  apply (proj1 (proj2 (formatBytes_unit_only_below_k4 1099511627776))).
  vm_compute; discriminate.
Defined.

(** ** The log queue *)

Lemma removelast_firstn_pred {A} (l : list A) (n : nat) :
  List.length l = S n -> removelast l = firstn n l.
Proof.
  intros H. rewrite removelast_firstn_len, H. reflexivity.
Qed.

(** What [addLogEntry] leaves in the queue, and what it leaves alone. *)
Lemma addLogEntry_queue (env : Env) (entry : LogEntry.t) (w : World) :
  let w' := exec (debug.addLogEntry entry) env w in
  logQueue (debug_object w') =
    (if Z.of_nat (S (List.length (logQueue (debug_object w)))) >? maxLogEntries (debug_object w)
     then removelast (entry :: logQueue (debug_object w))
     else entry :: logQueue (debug_object w)) /\
  maxLogEntries (debug_object w') = maxLogEntries (debug_object w) /\
  enabled (debug_object w') = enabled (debug_object w).
Proof.
  destruct_world w. js_unfold. cbn -[Z.of_nat Z.gtb removelast].
  destruct (_ >? _); destruct logs; cbn -[Z.of_nat Z.gtb removelast]; auto.
Qed.

(** With room in the queue the entry is put in front; with the queue full
    the entry is put in front and the last one goes. *)
Lemma insert_bounded {A} (entry : A) (queue : list A) :
  (List.length queue <= 100)%nat ->
  (if Z.of_nat (S (List.length queue)) >? 100
   then removelast (entry :: queue) else entry :: queue)
  = firstn 100 (entry :: queue).
Proof.
  intros Hlen. destruct (Z.gtb_spec (Z.of_nat (S (List.length queue))) 100) as [Hgt|Hle].
  - apply removelast_firstn_pred. simpl. lia.
  - symmetry. apply firstn_all2. simpl. lia.
Qed.

Lemma firstn_app_firstn {A} (n : nat) (a b : list A) :
  firstn n (a ++ firstn n b) = firstn n (a ++ b).
Proof.
  rewrite !firstn_app, firstn_firstn. do 2 f_equal. lia.
Qed.

(** One call of [log], [error] or [warn] is one [addLogEntry] of the entry
    it builds, or nothing for a [log] that is switched off. *)
Lemma log_call_queue (env : Env) (c : LogCall) (w : World) :
  let w' := exec (log_call c) env w in
  logQueue (debug_object w') =
    match entry_of (enabled (debug_object w)) (env, c) with
    | Some entry => logQueue (debug_object (exec (debug.addLogEntry entry) env w))
    | None => logQueue (debug_object w)
    end /\
  maxLogEntries (debug_object w') = maxLogEntries (debug_object w) /\
  enabled (debug_object w') = enabled (debug_object w).
Proof.
  destruct_world w. destruct c; unfold log_call, entry_of; js_unfold;
    cbn -[Z.of_nat Z.gtb removelast];
    try destruct on; cbn -[Z.of_nat Z.gtb removelast];
    try destruct (_ >? _); destruct logs; cbn -[Z.of_nat Z.gtb removelast]; auto.
Qed.

Lemma log_calls_queue (calls : list (Env * LogCall)) (w : World) :
  maxLogEntries (debug_object w) = 100 ->
  (List.length (logQueue (debug_object w)) <= 100)%nat ->
  logQueue (debug_object (log_calls calls w)) =
    firstn 100 (rev (entries_of (enabled (debug_object w)) calls) ++ logQueue (debug_object w)).
Proof.
  revert w. induction calls as [|[env c] rest IH]; intros w Hmax Hlen.
  - cbn [log_calls entries_of rev app]. symmetry. apply firstn_all2. exact Hlen.
  - cbn [log_calls entries_of].
    destruct (log_call_queue env c w) as (Hq & Hm & He).
    assert (Hq' : logQueue (debug_object (exec (log_call c) env w)) =
                  match entry_of (enabled (debug_object w)) (env, c) with
                  | Some entry => firstn 100 (entry :: logQueue (debug_object w))
                  | None => logQueue (debug_object w)
                  end).
    { rewrite Hq. destruct (entry_of _ _) as [entry|]; [|reflexivity].
      destruct (addLogEntry_queue env entry w) as (-> & _). rewrite Hmax.
      apply insert_bounded, Hlen. }
    rewrite IH; rewrite ?Hm, ?He, ?Hq'; try assumption.
    + destruct (entry_of _ _) as [entry|]; [|reflexivity].
      rewrite firstn_app_firstn. cbn [rev]. rewrite <- app_assoc. reflexivity.
    + destruct (entry_of _ _) as [entry|]; [|exact Hlen].
      rewrite length_firstn. lia.
Qed.

(** C1: the log queue holds at most 100 entries, newest first.  An
    insertion puts the new entry in front, and drops the oldest entry when
    the queue held 100; after a series of calls of [log], [error] and
    [warn] the queue is the first 100 of the inserted entries in reverse
    order of insertion followed by the former queue; so from an empty
    queue, more than 100 insertions leave exactly the 100 most recent,
    newest first. *)
Theorem logQueue_bounded_newest_first (calls : list (Env * LogCall)) (w : World) :
  maxLogEntries (debug_object w) = 100 ->
  (List.length (logQueue (debug_object w)) <= 100)%nat ->
  let before := logQueue (debug_object w) in
  let entries := entries_of (enabled (debug_object w)) calls in
  let after := logQueue (debug_object (log_calls calls w)) in
  (forall env entry,
     logQueue (debug_object (exec (debug.addLogEntry entry) env w)) =
       entry :: (if (List.length before <? 100)%nat then before else removelast before)) /\
  after = firstn 100 (rev entries ++ before) /\
  (List.length after <= 100)%nat /\
  (before = [] -> (100 < List.length entries)%nat ->
     List.length after = 100%nat /\ after = firstn 100 (rev entries)).
Proof.
  intros Hmax Hlen before entries after.
  assert (Hafter : after = firstn 100 (rev entries ++ before))
    by (apply log_calls_queue; assumption).
  split; [|split; [exact Hafter|split]].
  - intros env entry. destruct (addLogEntry_queue env entry w) as (-> & _).
    rewrite Hmax. fold before. rewrite insert_bounded by exact Hlen.
    destruct (Nat.ltb_spec (List.length before) 100) as [Hlt|Hge].
    + rewrite firstn_cons. f_equal. apply firstn_all2. lia.
    + rewrite firstn_cons. f_equal. symmetry. apply removelast_firstn_pred.
      unfold before in *. lia.
  - rewrite Hafter, length_firstn. lia.
  - intros Hnil Hmany. rewrite Hafter, Hnil, app_nil_r. split; [|reflexivity].
    rewrite length_firstn, length_rev. lia.
Qed.

Lemma logQueue_bounded_newest_first_witness :
  maxLogEntries (debug_object served) = 100 /\
  (List.length (logQueue (debug_object served)) <= 100)%nat /\
  let after := logQueue (debug_object (log_calls warnings_101 served)) in
  List.length after = 100%nat /\
  after = firstn 100 (rev (entries_of true warnings_101)).
Proof.
  split; [reflexivity|]. split; [apply Nat.le_0_l|].
  destruct (logQueue_bounded_newest_first warnings_101 served eq_refl (Nat.le_0_l 100))
    as (_ & _ & _ & H).
  apply H; [reflexivity|]. vm_compute. apply Nat.leb_le. reflexivity.
Defined.

(** ** Upload *)

(** C4: for a file whose name does not end in ".csv", [handleFile] shows
    the error notification "Please select a CSV file" and returns: the
    world differs from the one before by that toast (with its timeout and
    node number) only; no request goes out, none is left waiting, and no
    other part of the state changes. *)
Theorem handleFile_rejects_other_names (env : Env) (w : World) (f : File) :
  ~ (exists p, name f = p ++ lit ".csv") ->
  handleFile (Some f) env w
    = (Normal tt, with_error_toast (lit "Please select a CSV file") w) /\
  let w' := exec (handleFile (Some f)) env w in
  requests (browser w') = requests (browser w) /\
  pending (browser w') = pending (browser w) /\
  debug_object w' = debug_object w /\ debug_dom w' = debug_dom w /\
  upload_dom w' = upload_dom w /\ chat_dom w' = chat_dom w /\
  currentFile w' = currentFile w /\
  intervals (browser w') = intervals (browser w) /\
  console (browser w') = console (browser w).
Proof.
  intros Hname.
  assert (E : endsWith (name f) (lit ".csv") = false).
  { destruct (endsWith (name f) (lit ".csv")) eqn:E; [|reflexivity].
    exfalso. apply Hname, endsWith_spec, E. }
  destruct_world w. js_unfold. unfold with_error_toast, error_toast.
  rewrite E. cbn. repeat split.
Qed.

Lemma handleFile_rejects_other_names_witness :
  ~ (exists p, lit "data.txt" = p ++ lit ".csv") /\
  handleFile (Some {| name := lit "data.txt" |}) (env_at 0) served
    = (Normal tt, with_error_toast (lit "Please select a CSV file") served).
Proof.
  assert (H : ~ (exists p, lit "data.txt" = p ++ lit ".csv")).
  { intros Hp. apply endsWith_spec in Hp. discriminate Hp. }
  split; [exact H|].
  exact (proj1 (handleFile_rejects_other_names (env_at 0) served
                  {| name := lit "data.txt" |} H)).
Defined.

(** ** Chat *)

(** C5: when the trimmed value of the query input is empty, [sendQuery]
    returns at once and leaves the world as it was: no message in the
    transcript, no typing indicator, no request.  So does the click on the
    send button and any key pressed in the input. *)
Theorem sendQuery_ignores_blank_input (env : Env) (w : World) :
  trim (queryInput_value (chat_dom w)) = [] ->
  sendQuery env w = (Normal tt, w) /\
  step env QueryBtnClick w = w /\
  forall key, step env (QueryInputKeypress key) w = w.
Proof.
  intros Hblank.
  assert (Hsend : sendQuery env w = (Normal tt, w)).
  { unfold sendQuery, bind, gets. cbv beta iota. rewrite Hblank. reflexivity. }
  split; [exact Hsend|]. split.
  - unfold step, dispatch, bind, gets, when. cbv beta iota.
    destruct (page_listeners (browser w) && negb (queryBtn_disabled (chat_dom w)));
      cbv beta iota; [rewrite Hsend|]; reflexivity.
  - intros key. unfold step, dispatch, queryInput_keypress, bind, gets, when. cbv beta iota.
    destruct (page_listeners (browser w) && negb (queryInput_disabled (chat_dom w)));
      [|reflexivity].
    destruct (jsstring_eqb key (lit "Enter")); cbv beta iota; [rewrite Hsend|]; reflexivity.
Qed.

Lemma sendQuery_ignores_blank_input_witness :
  let w := served <| chat_dom -> queryInput_value := lit "   " |> in
  trim (queryInput_value (chat_dom w)) = [] /\ sendQuery (env_at 0) w = (Normal tt, w).
Proof.
  split; [reflexivity|].
  exact (proj1 (sendQuery_ignores_blank_input (env_at 0)
                  (served <| chat_dom -> queryInput_value := lit "   " |>) eq_refl)).
Defined.

(** ** Upload outcomes *)

(** C6: a successful upload, one whose response has no error and carries
    [stats], leaves the query input, the send button and the clear button
    enabled, whatever they were, so from disabled they become enabled;
    [deleteFile] leaves all three disabled. *)
Theorem chat_controls_follow_upload (env : Env) (w : World) :
  (forall file ok data rows columns,
     upload_error data = None \/ upload_error data = Some [] ->
     stats data = Some (rows, columns) ->
     chat_controls_disabled false (exec (handleFile_settled file (Json ok data)) env w)) /\
  (forall data fileName rows columns,
     stats data = Some (rows, columns) ->
     chat_controls_disabled false (exec (handleUploadSuccess data fileName) env w)) /\
  chat_controls_disabled true (exec deleteFile env w).
Proof.
  unfold chat_controls_disabled. destruct_world w. split; [|split].
  - intros file ok [uerr ustats uprev] r c Herr Hstats. cbn in Herr, Hstats.
    subst ustats. destruct Herr as [-> | ->]; js_unfold; cbn;
      destruct (delete_button _); repeat split.
  - intros [uerr ustats uprev] fileName r c Hstats. cbn in Hstats.
    subst ustats. js_unfold. cbn. destruct (delete_button _); repeat split.
  - repeat split.
Qed.

Lemma chat_controls_follow_upload_witness :
  let data := {| upload_error := None; stats := Some (10, 3); preview := lit "<table></table>" |} in
  stats data = Some (10, 3) /\
  chat_controls_disabled true served /\
  chat_controls_disabled false
    (exec (handleFile_settled {| name := lit "data.csv" |} (Json true data)) (env_at 0) served).
Proof.
  split; [reflexivity|]. split; [repeat split|].
  apply (proj1 (chat_controls_follow_upload (env_at 0) served)
           {| name := lit "data.csv" |} true
           {| upload_error := None; stats := Some (10, 3); preview := lit "<table></table>" |}
           10 3); [left|]; reflexivity.
Defined.

(** C8, at an input where the code leaves the spinner.  The served page
    has loaded; a file named [<span id=loadingSpinner>.csv] is uploaded
    with success, so its badge holds an element with the id of the
    spinner; then data.csv is sent and its spinner shown.  When that
    request settles, with a network failure or with a success,
    [hideLoadingSpinner] removes the element of the badge, which comes
    first in the document, and the spinner stays on the page with no
    upload in flight. *)
Theorem spinner_left_behind :
  spinners second_upload_sent = 1%nat /\
  uploads_in_flight second_upload_sent = 1%nat /\
  (let w := step (env_markup 5) (RequestSettles 1
                (UploadResponse (NetworkFailure (lit "Failed to fetch")))) second_upload_sent in
   spinners w = 1%nat /\ uploads_in_flight w = 0%nat /\
   dropZone (upload_dom w) = [FileInfo markup_name 0 true; LoadingSpinner]) /\
  (let w := step (env_markup 5) (RequestSettles 1 (UploadResponse
                (Json true {| upload_error := None; stats := Some (4, 2);
                              preview := lit "<table></table>" |}))) second_upload_sent in
   spinners w = 1%nat /\ uploads_in_flight w = 0%nat /\
   dropZone (upload_dom w) = [LoadingSpinner; FileInfo (lit "data.csv") 0 true]).
Proof. repeat split. Qed.

(** ** Chat messages *)

(** C7: for every content string, [addMessage] with type "assistant" gives
    the new node the markup [md.render(content)] as [innerHTML], and with
    type "user" gives it [content] as [textContent]: nothing of a user
    message reaches the HTML parser, whatever the string holds. *)
Theorem addMessage_markdown_or_text (env : Env) (w : World) (content : jsstring) :
  let node := next_node (browser w) in
  let appended (className : jsstring) (c : NodeContent) :=
    w <| browser -> next_node ::= S |>
      <| chat_dom -> chatMessages ::= fun l => l ++ [MessageDiv node className c] |> in
  addMessage (Some content) (lit "assistant") env w
    = (Normal tt, appended (lit "message assistant-message")
                    (InnerHTML (md_render env content))) /\
  addMessage (Some content) (lit "user") env w
    = (Normal tt, appended (lit "message user-message") (TextContent content)) /\
  parsed_markup (InnerHTML (md_render env content)) = Some (md_render env content) /\
  parsed_markup (TextContent content) = None.
Proof.
  destruct_world w. repeat split.
Qed.

Lemma existsb_filter_out {A} (p : A -> bool) (l : list A) :
  existsb p (filter (fun x => negb (p x)) l) = false.
Proof.
  induction l as [|x l IH]; [reflexivity|]. cbn.
  destruct (p x) eqn:E; cbn; [exact IH|]. rewrite E. exact IH.
Qed.

Lemma filter_idem {A} (p : A -> bool) (l : list A) :
  filter p (filter p l) = filter p l.
Proof.
  induction l as [|x l IH]; [reflexivity|]. cbn.
  destruct (p x) eqn:E; cbn; [rewrite E; f_equal|]; exact IH.
Qed.

(** C9, as the code has it: for every query response whose body has an
    error field that is not the empty string, the typing indicator is
    removed, the error message is shown in an error toast, and no
    assistant message is added to the transcript. *)
Theorem query_error_is_notified (env : Env) (w : World) (typingIndicator : nat)
    (ok : bool) (body : QueryBody) (message : jsstring) :
  query_error body = Some message ->
  message <> [] ->
  error_response_handled env w typingIndicator ok body message.
Proof.
  intros Herr Hmsg. destruct body as [qerr qresp]. cbn in Herr. subst qerr.
  destruct message as [|c message]; [contradiction|].
  destruct_world w. unfold error_response_handled, error_toast. js_unfold. cbn.
  rewrite filter_idem. split; [apply existsb_filter_out|]. split; reflexivity.
Qed.

Lemma query_error_is_notified_witness :
  let body := {| query_error := Some (lit "No data loaded"); response := None |} in
  query_error body = Some (lit "No data loaded") /\
  lit "No data loaded" <> [] /\
  error_response_handled (env_at 5) asking 2 true body (lit "No data loaded").
Proof.
  assert (H : lit "No data loaded" <> []) by discriminate.
  split; [reflexivity|]. split; [exact H|].
  exact (query_error_is_notified (env_at 5) asking 2 true
           {| query_error := Some (lit "No data loaded"); response := None |}
           (lit "No data loaded") eq_refl H).
Defined.

(** C9 as stated fails for a body whose error field is the empty string:
    [if (data.error)] takes it for a success, the response is added as an
    assistant message and nothing is notified. *)
Lemma empty_error_field_counterexample :
  let body := {| query_error := Some []; response := Some (lit "ok") |} in
  query_error body = Some [] /\
  ~ error_response_handled (env_at 5) asking 2 true body [].
Proof.
  split; [reflexivity|].
  intros (_ & Htoast & _). vm_compute in Htoast. discriminate Htoast.
Qed.

(** ** Status polling *)

Ltac count_fetches :=
  unfold status_fetches; cbn; rewrite ?filter_app, ?length_app; cbn; try lia.

(** What one turn of the event loop does, once the page has loaded, to the
    visibility of the debug panel and to the number of status requests:
    the toggle flips the panel and fetches when it opens it, the poll
    interval fetches when the panel is shown, nothing else touches
    either. *)
Lemma step_status (env : Env) (e : Event) (w : World) :
  page_listeners (browser w) = true ->
  let w' := step env e w in
  let shown := debugPanel_show (debug_dom w) in
  page_listeners (browser w') = true /\
  debugPanel_show (debug_dom w') =
    match e with
    | DebugToggleClick => if debugToggle_listener (browser w) then negb shown else shown
    | _ => shown
    end /\
  status_fetches w' =
    match e with
    | DebugToggleClick =>
        if debugToggle_listener (browser w) && negb shown
        then S (status_fetches w) else status_fetches w
    | IntervalFires n =>
        match nth_error (intervals (browser w)) n with
        | Some (_, PollSystemStatus) =>
            if shown then S (status_fetches w) else status_fetches w
        | _ => status_fetches w
        end
    | _ => status_fetches w
    end.
Proof.
  intros Hloaded. destruct_world w. cbn in Hloaded. subst wired.
  destruct e; js_unfold; js_cases; repeat split; count_fetches.
Qed.

(** While the panel stays closed, nothing fetches the status. *)
Lemma run_closed (events : list (Env * Event)) (w : World) :
  page_listeners (browser w) = true ->
  debugPanel_show (debug_dom w) = false ->
  forallb (fun ev => negb (is_toggle_click (snd ev))) events = true ->
  let w' := run events w in
  page_listeners (browser w') = true /\
  debugPanel_show (debug_dom w') = false /\
  status_fetches w' = status_fetches w.
Proof.
  revert w. induction events as [|[env e] rest IH]; intros w Hloaded Hclosed Hnone.
  - cbn. auto.
  - cbn in Hnone. apply andb_true_iff in Hnone as [He Hrest].
    destruct (step_status env e w Hloaded) as (Hl & Hs & Hf).
    rewrite Hclosed in Hs, Hf.
    assert (Hs' : debugPanel_show (debug_dom (step env e w)) = false)
      by (rewrite Hs; destruct e; try reflexivity; discriminate He).
    assert (Hf' : status_fetches (step env e w) = status_fetches w).
    { rewrite Hf. destruct e; try reflexivity; [discriminate He|].
      destruct (nth_error _ _) as [[delay [|]]|]; reflexivity. }
    destruct (IH (step env e w) Hl Hs' Hrest) as (H1 & H2 & H3).
    cbn [run]. rewrite <- Hf'. auto.
Qed.

(** C3, as the code has it.  Setting the panel up on [DOMContentLoaded]
    sends one status request whether the panel is shown or not, and starts
    the 5000 ms interval.  From then on a status request goes out only in
    a turn that ends with the panel shown: the click that opens the panel
    sends one at once, the interval sends one each time it fires with the
    panel shown and none with the panel hidden, and from the click that
    closes the panel to the next click on the toggle no event sends
    one. *)
Theorem status_fetched_while_visible_after_setup :
  (forall env w,
     page_listeners (browser w) = false ->
     enabled (debug_object w) = true ->
     debugToggle (debug_dom w) = true -> debugPanel (debug_dom w) = true ->
     let w' := step env DOMContentLoaded w in
     status_fetches w' = S (status_fetches w) /\
     debugPanel_show (debug_dom w') = debugPanel_show (debug_dom w) /\
     (exists more, intervals (browser w')
        = intervals (browser w) ++ (5000, PollSystemStatus) :: more) /\
     debugToggle_listener (browser w') = true /\
     page_listeners (browser w') = true) /\
  (forall env e w,
     page_listeners (browser w) = true -> fetch_only_while_visible env e w) /\
  (forall env w,
     page_listeners (browser w) = true ->
     debugToggle_listener (browser w) = true ->
     debugPanel_show (debug_dom w) = false ->
     let w' := step env DebugToggleClick w in
     debugPanel_show (debug_dom w') = true /\
     status_fetches w' = S (status_fetches w)) /\
  (forall env n delay w,
     page_listeners (browser w) = true ->
     nth_error (intervals (browser w)) n = Some (delay, PollSystemStatus) ->
     let w' := step env (IntervalFires n) w in
     debugPanel_show (debug_dom w') = debugPanel_show (debug_dom w) /\
     status_fetches w' =
       if debugPanel_show (debug_dom w) then S (status_fetches w) else status_fetches w) /\
  (forall events w,
     page_listeners (browser w) = true ->
     debugPanel_show (debug_dom w) = false ->
     forallb (fun ev => negb (is_toggle_click (snd ev))) events = true ->
     debugPanel_show (debug_dom (run events w)) = false /\
     status_fetches (run events w) = status_fetches w).
Proof.
  split; [|split; [|split; [|split]]].
  - intros env w Hloaded Hon Htoggle Hpanel. destruct_world w. cbn in *. subst.
    js_unfold. destruct (performance_memory env) as [[[u t] l]|] eqn:Hmem;
      js_cbn; rewrite ?Hmem; js_cbn;
      (split; [count_fetches|split; [reflexivity|split; [|split; reflexivity]]]);
      eexists; rewrite <- ?app_assoc; reflexivity.
  - intros env e w Hloaded Hchange.
    destruct (step_status env e w Hloaded) as (_ & Hs & Hf).
    rewrite Hs. destruct e; try (exfalso; apply Hchange; exact Hf).
    + destruct (debugToggle_listener (browser w)); cbn in Hf;
        [|exfalso; apply Hchange; exact Hf].
      destruct (debugPanel_show (debug_dom w)); cbn in *;
        [exfalso; apply Hchange; exact Hf|reflexivity].
    + destruct (nth_error _ _) as [[delay [|]]|]; try (exfalso; apply Hchange; exact Hf).
      destruct (debugPanel_show (debug_dom w));
        [reflexivity|exfalso; apply Hchange; exact Hf].
  - intros env w Hloaded Hwired Hclosed.
    destruct (step_status env DebugToggleClick w Hloaded) as (_ & Hs & Hf).
    rewrite Hwired, Hclosed in Hs, Hf. auto.
  - intros env n delay w Hloaded Htimer.
    destruct (step_status env (IntervalFires n) w Hloaded) as (_ & Hs & Hf).
    rewrite Htimer in Hf. auto.
  - intros events w Hloaded Hclosed Hnone.
    destruct (run_closed events w Hloaded Hclosed Hnone) as (_ & H2 & H3). auto.
Qed.

Lemma status_fetched_while_visible_after_setup_witness :
  (page_listeners (browser served) = false /\
   status_fetches loaded = 1%nat /\
   intervals (browser loaded) = [(5000, PollSystemStatus)]) /\
  (page_listeners (browser loaded) = true /\
   debugPanel_show (debug_dom loaded) = false /\
   status_fetches (step (env_at 1) DebugToggleClick loaded) = 2%nat /\
   status_fetches (step (env_at 5) (IntervalFires 0) loaded) = 1%nat /\
   fetch_only_while_visible (env_at 1) DebugToggleClick loaded) /\
  (debugPanel_show (debug_dom closed_again) = false /\
   status_fetches closed_again = 2%nat /\
   status_fetches (run ticks_and_drop closed_again) = 2%nat).
Proof.
  destruct status_fetched_while_visible_after_setup
    as (Hsetup & Honly & Hopen & Htick & Hclosed).
  split; [|split].
  - destruct (Hsetup (env_at 0) served eq_refl eq_refl eq_refl eq_refl) as (H1 & _).
    split; [reflexivity|]. split; [exact H1|reflexivity].
  - destruct (Hopen (env_at 1) loaded eq_refl eq_refl eq_refl) as (_ & H2).
    destruct (Htick (env_at 5) 0%nat 5000 loaded eq_refl eq_refl) as (_ & H3).
    split; [reflexivity|]. split; [reflexivity|]. split; [exact H2|].
    split; [exact H3|]. exact (Honly (env_at 1) DebugToggleClick loaded eq_refl).
  - destruct (Hclosed ticks_and_drop closed_again eq_refl eq_refl eq_refl) as (_ & H4).
    split; [reflexivity|]. split; [reflexivity|]. rewrite H4. reflexivity.
Defined.

(** C3 as stated fails at the set-up: on [DOMContentLoaded] a status
    request goes out although the panel of the served page is hidden. *)
Lemma setup_fetch_counterexample :
  debugPanel_show (debug_dom served) = false /\
  status_fetches served = 0%nat /\
  status_fetches (step (env_at 0) DOMContentLoaded served) = 1%nat /\
  ~ fetch_only_while_visible (env_at 0) DOMContentLoaded served.
Proof.
  split; [reflexivity|]. split; [reflexivity|]. split; [reflexivity|].
  intros H. assert (Hshown : debugPanel_show
    (debug_dom (step (env_at 0) DOMContentLoaded served)) = true)
    by (apply H; vm_compute; discriminate).
  vm_compute in Hshown. discriminate Hshown.
Qed.

(** ** The scenarios of the specification, run on the served page *)

(** Dropping data.txt: the toast, and no request besides the status
    request of the set-up. *)
Example scenario_drop_txt :
  let w := step (env_at 1) (Drop (Some {| name := lit "data.txt" |})) loaded in
  map textContent (notifications (browser w)) = [lit "Please select a CSV file"] /\
  requests (browser w) = [GetDebugStatus].
Proof. split; reflexivity. Qed.

(** Uploading data.csv with 10 rows and 3 columns: the counters show 10
    and 3 and the chat input is enabled. *)
Example scenario_upload_csv :
  let w := run [(env_at 1, Drop (Some {| name := lit "data.csv" |}));
                (env_at 2, RequestSettles 1 (UploadResponse
                   (Json true {| upload_error := None; stats := Some (10, 3);
                                 preview := lit "<table></table>" |})))] loaded in
  rowCount (upload_dom w) = 10 /\ colCount (upload_dom w) = 3 /\
  queryInput_disabled (chat_dom w) = false /\ spinners w = 0%nat.
Proof. repeat split. Qed.

(** Asking "hi": the user bubble is there at once with the typing
    indicator; the answer replaces the indicator by an assistant bubble. *)
Example scenario_question :
  chatMessages (chat_dom asking) =
    [WelcomeMessage;
     MessageDiv 1 (lit "message user-message") (TextContent (lit "hi"));
     MessageDiv 2 typingIndicator_className (InnerHTML typingIndicator_markup)] /\
  chatMessages (chat_dom (step (env_at 5) (RequestSettles 1 (QueryResponse
     (Json true {| query_error := None; response := Some (lit "The **average** is 5") |})))
     asking)) =
    [WelcomeMessage;
     MessageDiv 1 (lit "message user-message") (TextContent (lit "hi"));
     MessageDiv 3 (lit "message assistant-message")
       (InnerHTML (md_render (env_at 5) (lit "The **average** is 5")))].
Proof. split; reflexivity. Qed.

(** Sizes around the steps of the scale. *)
Example formatBytes_steps :
  map debug.formatBytes [1; 1023; 1048575; 1234567; 1073741824; 1099511627776; -5] =
  [lit "1 Bytes"; lit "1023 Bytes"; lit "1024 KB"; lit "1.18 MB"; lit "1 GB";
   lit "1 undefined"; lit "NaN undefined"].
Proof. reflexivity. Qed.

(** * Further properties of the script *)

(** ** The [debug] object *)

(** X1: [debug.init] does nothing at all when [debug.enabled] is off; and
    when it is on but the toggle or the panel element is missing,
    [setupDebugPanel] sends no status request, starts no poll interval and
    adds no click listener, while the listeners of [window] are still
    installed. *)
Theorem init_without_debug_or_panel (env : Env) (w : World) :
  (enabled (debug_object w) = false -> debug.init env w = (Normal tt, w)) /\
  (enabled (debug_object w) = true ->
   debugToggle (debug_dom w) && debugPanel (debug_dom w) = false ->
   let w' := exec debug.init env w in
   requests (browser w') = requests (browser w) /\
   filter (fun t => match snd t with PollSystemStatus => true | SampleMemory => false end)
     (intervals (browser w'))
   = filter (fun t => match snd t with PollSystemStatus => true | SampleMemory => false end)
       (intervals (browser w)) /\
   debugToggle_listener (browser w') = debugToggle_listener (browser w) /\
   window_listeners (browser w') = true).
Proof.
  destruct_world w. split.
  - cbn. intros ->. reflexivity.
  - cbn -[filter]. intros -> Hmissing. js_unfold. js_cbn. rewrite Hmissing. js_cbn.
    destruct (performance_memory env) as [[[u t] l]|]; js_cbn; repeat split.
    rewrite filter_app. cbn. apply app_nil_r.
Qed.

Lemma init_without_debug_or_panel_witness :
  debug.init (env_at 0) served_debug_off = (Normal tt, served_debug_off) /\
  requests (browser (exec debug.init (env_at 0) served_without_panel)) = [] /\
  window_listeners (browser (exec debug.init (env_at 0) served_without_panel)) = true.
Proof.
  split.
  - exact (proj1 (init_without_debug_or_panel (env_at 0) served_debug_off) eq_refl).
  - destruct (proj2 (init_without_debug_or_panel (env_at 0) served_without_panel)
                eq_refl eq_refl) as (H1 & _ & _ & H4).
    split; [exact H1|exact H4].
Defined.

(** X2: [debug.enabled] gates [debug.log] only.  With the flag off,
    [debug.log] leaves the world as it is (no entry, no console line),
    while [debug.error] and [debug.warn] still put their entry at the
    front of the queue and write their console line. *)
Theorem enabled_gates_log_only (env : Env) (w : World) (message : jsstring) (v : JsValue) :
  enabled (debug_object w) = false ->
  0 < maxLogEntries (debug_object w) ->
  debug.log message v env w = (Normal tt, w) /\
  (let w' := exec (debug.error message v) env w in
   hd_error (logQueue (debug_object w'))
     = Some (LogEntry.make error_t (now env) message JUndefined (debug.default_null v)) /\
   console (browser w') = console (browser w) ++
     [{| console_level := console_error; console_timestamp := Some (now env);
         console_message := message; console_arg := orEmpty (debug.default_null v) |}]) /\
  (let w' := exec (debug.warn message v) env w in
   hd_error (logQueue (debug_object w'))
     = Some (LogEntry.make warn_t (now env) message (debug.default_null v) JUndefined) /\
   console (browser w') = console (browser w) ++
     [{| console_level := console_warn; console_timestamp := Some (now env);
         console_message := message; console_arg := orEmpty (debug.default_null v) |}]).
Proof.
  intros Hoff Hmax. destruct_world w. cbn in Hoff, Hmax. subst on.
  split; [reflexivity|].
  split; js_unfold; js_cbn;
    (match goal with
     | |- context [Z.gtb ?a ?b] => destruct (Z.gtb_spec a b) as [Hgt|Hle]
     end;
     js_cbn; destruct logs; js_cbn; (split; [|reflexivity]);
     destruct queue; try reflexivity; cbn in Hgt; lia).
Qed.

Lemma enabled_gates_log_only_witness :
  debug.log (lit "hidden") JNull (env_at 7) served_debug_off = (Normal tt, served_debug_off) /\
  List.length (logQueue (debug_object
    (exec (debug.warn (lit "shown") JNull) (env_at 7) served_debug_off))) = 1%nat.
Proof.
  destruct (enabled_gates_log_only (env_at 7) served_debug_off (lit "hidden") JNull
              eq_refl eq_refl) as (H & _).
  split; [exact H|reflexivity].
Defined.

(** X3: after [log], [error] or [warn] has inserted an entry, [#recentLogs]
    shows exactly what [formatLogEntries] makes of the queue as it is
    then, one block per entry in the order of the queue; where the element
    is missing nothing is rendered. *)
Theorem recentLogs_shows_queue (env : Env) (c : LogCall) (w : World) :
  entry_of (enabled (debug_object w)) (env, c) <> None ->
  let w' := exec (log_call c) env w in
  (recentLogs (debug_dom w) <> None ->
   exists html, debug.formatLogEntries env w' = (Normal html, w') /\
                recentLogs (debug_dom w') = Some html /\
                map log_message html = map LogEntry.message (logQueue (debug_object w')) /\
                map log_time html = map LogEntry.timestamp (logQueue (debug_object w'))) /\
  (recentLogs (debug_dom w) = None -> recentLogs (debug_dom w') = None).
Proof.
  intros Hentry. destruct_world w. cbn in Hentry.
  destruct c; (try destruct on); try (exfalso; apply Hentry; reflexivity);
    unfold log_call; js_unfold; js_cbn;
    (destruct (_ >? _); js_cbn; destruct logs; js_cbn;
     (split; [intros Hlogs|intros Hlogs]); try discriminate Hlogs; try reflexivity;
     try (exfalso; apply Hlogs; reflexivity);
     eexists; (split; [reflexivity|]); (split; [reflexivity|]);
     rewrite !map_map; split; reflexivity).
Qed.

Lemma recentLogs_shows_queue_witness :
  exists html,
    recentLogs (debug_dom (exec (log_call (call_warn (lit "slow") JNull)) (env_at 3) served))
      = Some html /\
    map log_time html = [3].
Proof.
  assert (Hentry : entry_of (enabled (debug_object served))
                     (env_at 3, call_warn (lit "slow") JNull) <> None) by discriminate.
  assert (Hlogs : recentLogs (debug_dom served) <> None) by discriminate.
  destruct (proj1 (recentLogs_shows_queue (env_at 3) (call_warn (lit "slow") JNull)
                     served Hentry) Hlogs) as (html & _ & H2 & _ & H4).
  exists html. split; [exact H2|exact H4].
Defined.

(** X4: the block of an entry made by [debug.error] never shows its
    payload: [formatLogEntries] reads [entry.data], and [debug.error]
    stores its argument under [error].  The block of an entry made by
    [debug.warn] shows the payload exactly when it is truthy.  Either block
    comes first in [#recentLogs], with the type in upper case. *)
Theorem error_blocks_show_no_payload (env : Env) (w : World)
    (message : jsstring) (v : JsValue) :
  recentLogs (debug_dom w) <> None ->
  0 < maxLogEntries (debug_object w) ->
  (exists rest,
     recentLogs (debug_dom (exec (debug.error message v) env w)) =
       Some ({| log_time := now env; log_type := error_t; log_type_upper := lit "ERROR";
                log_message := message; log_data := None |} :: rest)) /\
  (exists rest,
     recentLogs (debug_dom (exec (debug.warn message v) env w)) =
       Some ({| log_time := now env; log_type := warn_t; log_type_upper := lit "WARN";
                log_message := message;
                log_data := if toBoolean v then Some v else None |} :: rest)).
Proof.
  intros Hlogs Hmax. destruct_world w. cbn in Hlogs, Hmax.
  destruct logs as [old|]; [clear Hlogs|exfalso; apply Hlogs; reflexivity].
  split; js_unfold; js_cbn;
    (match goal with
     | |- context [Z.gtb ?a ?b] => destruct (Z.gtb_spec a b) as [Hgt|Hle]
     end; js_cbn;
     (destruct queue as [|e queue]; [try (cbn in Hgt; lia)|]);
     cbn [removelast map]; try (destruct v; cbn; eexists; reflexivity);
     eexists; reflexivity).
Qed.

Lemma error_blocks_show_no_payload_witness :
  exists rest,
    recentLogs (debug_dom (exec (debug.error (lit "Global error:")
                                   (JObject [(lit "message", JString (lit "boom"))]))
                             (env_at 9) served)) =
      Some ({| log_time := 9; log_type := error_t; log_type_upper := lit "ERROR";
               log_message := lit "Global error:"; log_data := None |} :: rest).
Proof.
  assert (Hlogs : recentLogs (debug_dom served) <> None) by discriminate.
  exact (proj1 (error_blocks_show_no_payload (env_at 9) served (lit "Global error:")
                  (JObject [(lit "message", JString (lit "boom"))]) Hlogs eq_refl)).
Defined.

Ltac gtb_facts :=
  repeat match goal with
    | H : (_ >? _) = true |- _ => apply Z.gtb_lt in H
    | H : (_ >? _) = false |- _ => rewrite Z.gtb_ltb in H; apply Z.ltb_ge in H
    end.

Lemma length_removelast_cons {A} (x : A) (l : list A) :
  List.length (removelast (x :: l)) = List.length l.
Proof. rewrite removelast_firstn_len, length_firstn. cbn [List.length]. lia. Qed.

(** No turn of the event loop changes [debug.enabled] or
    [debug.maxLogEntries], or takes the queue beyond its bound. *)
Lemma step_queue_bound (env : Env) (e : Event) (w : World) :
  queue_within_bound w ->
  let w' := step env e w in
  queue_within_bound w' /\
  maxLogEntries (debug_object w') = maxLogEntries (debug_object w) /\
  enabled (debug_object w') = enabled (debug_object w).
Proof.
  unfold queue_within_bound. intros Hinv. destruct_world w. cbn -[Z.of_nat List.length] in Hinv.
  destruct e; js_unfold; js_cases; gtb_facts;
    rewrite ?length_removelast_cons; cbn [List.length] in *; repeat split; lia.
Qed.

(** X5: whatever events the page goes through (window errors, memory
    samples, uploads, queries), the log queue never grows beyond
    [maxLogEntries] once it is within it, and [maxLogEntries] and
    [enabled] keep their values. *)
Theorem logQueue_bounded_over_events (events : list (Env * Event)) (w : World) :
  queue_within_bound w ->
  let w' := run events w in
  queue_within_bound w' /\
  maxLogEntries (debug_object w') = maxLogEntries (debug_object w) /\
  enabled (debug_object w') = enabled (debug_object w).
Proof.
  revert w. induction events as [|[env e] rest IH]; intros w Hinv.
  - cbn. auto.
  - destruct (step_queue_bound env e w Hinv) as (H1 & H2 & H3).
    destruct (IH (step env e w) H1) as (H4 & H5 & H6).
    cbn [run]. rewrite <- H2, <- H3. auto.
Qed.

Lemma logQueue_bounded_over_events_witness :
  queue_within_bound loaded /\
  queue_within_bound (run window_errors_101 loaded) /\
  List.length (logQueue (debug_object (run window_errors_101 loaded))) = 100%nat.
Proof.
  assert (H : queue_within_bound loaded) by (vm_compute; discriminate).
  split; [exact H|]. split.
  - exact (proj1 (logQueue_bounded_over_events window_errors_101 loaded H)).
  - vm_compute. reflexivity.
Defined.

(** ** [debug.formatBytes], further *)

Lemma decimal_hundredths_whole (m : Z) :
  debug.hundredths_text (100 * m) = decimal m.
Proof.
  unfold debug.hundredths_text.
  replace (100 * m) with (m * 100) by lia.
  rewrite Z.mod_mul by lia. cbn [Z.eqb]. rewrite Z.div_mul by lia. reflexivity.
Qed.

(** X6: a size from 1 to 1023 bytes is printed as the integer itself
    followed by "Bytes", without decimals. *)
Theorem formatBytes_below_k (bytes : Z) :
  0 < bytes < debug.k ->
  debug.formatBytes bytes = decimal bytes ++ lit " Bytes".
Proof.
  intros [Hpos Hlt].
  destruct (unit_index_spec bytes Hpos) as (i & Hi & Hi0 & Hlo & Hhi).
  assert (i = 0).
  { destruct (Z.eq_dec i 0) as [|Hne]; [assumption|].
    assert (debug.k ^ 1 <= debug.k ^ i) by (apply Z.pow_le_mono_r; unfold debug.k; lia).
    change (debug.k ^ 1) with debug.k in *. lia. }
  subst i. rewrite formatBytes_nonzero by lia. unfold debug.scaled. rewrite Hi.
  change (debug.k ^ 0) with 1. unfold debug.toFixed2.
  replace (2 * 100 * bytes + 1) with (1 + (100 * bytes) * 2) by lia.
  change (2 * 1) with 2. rewrite Z.div_add by lia. change (1 / 2) with 0.
  rewrite Z.add_0_l, decimal_hundredths_whole. reflexivity.
Qed.

Lemma formatBytes_below_k_witness :
  0 < 1023 < debug.k /\ debug.formatBytes 1023 = lit "1023 Bytes".
Proof.
  split; [vm_compute; split; reflexivity|].
  exact (formatBytes_below_k 1023 (conj eq_refl eq_refl)).
Defined.

(** X7: for every size from 1 to below [1024 ^ 4], with its unit index
    [i], the number [formatBytes] prints lies between 1 and 1024
    inclusive: the count of hundredths of [bytes / 1024 ^ i] is between 100
    and 102400.  The upper end is reached: a size just below a power of
    1024 prints as 1024 of the smaller unit, not as 1 of the next. *)
Theorem formatBytes_number_range (bytes i : Z) :
  0 < bytes < debug.k ^ 4 ->
  debug.unit_index bytes = Some i ->
  100 <= debug.toFixed2 bytes (debug.k ^ i) <= 102400 /\
  debug.formatBytes bytes
    = debug.hundredths_text (debug.toFixed2 bytes (debug.k ^ i))
        ++ lit " " ++ debug.text_of (debug.sizes_at i).
Proof.
  intros [Hpos _] Hi.
  destruct (unit_index_spec bytes Hpos) as (j & Hj & Hj0 & Hlo & Hhi).
  rewrite Hi in Hj. injection Hj as <-.
  assert (Hden : 0 < debug.k ^ i) by (apply Z.pow_pos_nonneg; [reflexivity|exact Hj0]).
  assert (Hk : debug.k ^ (i + 1) = 1024 * debug.k ^ i)
    by (rewrite Z.pow_add_r by lia; change (debug.k ^ 1) with 1024; lia).
  rewrite Hk in Hhi. split.
  - unfold debug.toFixed2. split.
    + apply Z.div_le_lower_bound; nia.
    + apply Z.lt_succ_r, Z.div_lt_upper_bound; nia.
  - rewrite formatBytes_nonzero by lia. unfold debug.scaled. rewrite Hi. reflexivity.
Qed.

Lemma formatBytes_number_range_witness :
  debug.unit_index 1048575 = Some 1 /\
  debug.toFixed2 1048575 (debug.k ^ 1) = 102400 /\
  debug.formatBytes 1048575 = lit "1024 KB".
Proof.
  destruct (formatBytes_number_range 1048575 1 (conj eq_refl eq_refl) eq_refl) as (_ & H).
  split; [reflexivity|]. split; [reflexivity|]. rewrite H. reflexivity.
Defined.

(** ** The status panel *)

(** X8: a status response that fails puts an error box into
    [#systemStatus] (where the element exists) and leaves
    [#performanceMetrics] as it was.  A response whose HTTP status is not
    ok is reported as "Debug status request failed" whatever its body, and
    without reading it; a rejected request or an unparsable body is
    reported with its own message.  No outcome sends a request, shows a
    toast or touches the log queue: the failure goes to the console
    only. *)
Theorem status_failure_goes_to_the_box (env : Env) (w : World) (o : Outcome StatusDoc) :
  let w' := exec (debug.updateSystemStatus_settled o) env w in
  let box (message : jsstring) :=
    systemStatus (debug_dom w')
      = option_map (fun _ => StatusErrorBox message) (systemStatus (debug_dom w)) /\
    performanceMetrics (debug_dom w') = performanceMetrics (debug_dom w) /\
    console (browser w') = console (browser w) ++
      [{| console_level := console_error; console_timestamp := None;
          console_message := lit "Debug status error:"; console_arg := JString message |}] in
  match o with
  | NetworkFailure message => box message
  | ParseFailure true message => box message
  | ParseFailure false _ => box (lit "Debug status request failed")
  | Json false _ => box (lit "Debug status request failed")
  | Json true data =>
      systemStatus (debug_dom w')
        = option_map (fun _ => StatusRendered (debug.formatSystemStatus data))
            (systemStatus (debug_dom w)) /\
      performanceMetrics (debug_dom w')
        = option_map (fun _ => Some (debug.formatPerformanceMetrics data))
            (performanceMetrics (debug_dom w)) /\
      console (browser w') = console (browser w)
  end /\
  requests (browser w') = requests (browser w) /\
  notifications (browser w') = notifications (browser w) /\
  debug_object w' = debug_object w.
Proof.
  destruct_world w. destruct o as [message | [|] message | [|] data]; repeat split.
Qed.

(** X9: two clicks on the debug toggle bring the panel back to the
    visibility it had and send exactly one status request, the one of the
    click that opened the panel. *)
Theorem toggle_twice (env1 env2 : Env) (w : World) :
  page_listeners (browser w) = true ->
  debugToggle_listener (browser w) = true ->
  let w' := step env2 DebugToggleClick (step env1 DebugToggleClick w) in
  debugPanel_show (debug_dom w') = debugPanel_show (debug_dom w) /\
  status_fetches w' = S (status_fetches w).
Proof.
  intros Hloaded Hwired. destruct_world w. cbn in Hloaded, Hwired. subst wired twired.
  js_unfold. destruct shown; js_cbn; split; try reflexivity; count_fetches.
Qed.

Lemma toggle_twice_witness :
  page_listeners (browser loaded) = true /\
  debugToggle_listener (browser loaded) = true /\
  status_fetches closed_again = S (status_fetches loaded).
Proof.
  split; [reflexivity|]. split; [reflexivity|].
  exact (proj2 (toggle_twice (env_at 1) (env_at 2) loaded eq_refl eq_refl)).
Defined.

(** ** Node numbers *)

Lemma Forall_filter_keep {A} (P : A -> Prop) (f : A -> bool) (l : list A) :
  Forall P l -> Forall P (filter f l).
Proof.
  rewrite !Forall_forall. intros H x Hx. apply filter_In in Hx. apply H, Hx.
Qed.

Lemma chat_node_below_le (n m : nat) (l : list ChatChild) :
  (n <= m)%nat -> Forall (chat_node_below n) l -> Forall (chat_node_below m) l.
Proof.
  intros Hle. apply Forall_impl. intros [|k c b]; cbn; [trivial|lia].
Qed.

Lemma notification_below_le (n m : nat) (l : list Notification) :
  (n <= m)%nat ->
  Forall (fun t => (notification_node t < n)%nat) l ->
  Forall (fun t => (notification_node t < m)%nat) l.
Proof. intros Hle. apply Forall_impl. intros t. lia. Qed.

Lemma notification_below_fadeOut (k n : nat) (l : list Notification) :
  Forall (fun t => (notification_node t < n)%nat) l ->
  Forall (fun t => (notification_node t < n)%nat)
    (map (fun t => if Nat.eqb (notification_node t) k
                   then t <| animation := fadeOut |> else t) l).
Proof.
  intros H. apply Forall_map. revert H. apply Forall_impl. intros t Ht.
  destruct (Nat.eqb (notification_node t) k); exact Ht.
Qed.

Ltac numbered :=
  repeat first
    [ apply Forall_nil
    | apply Forall_app; split
    | apply Forall_cons; [cbn; lia|]
    | apply Forall_filter_keep
    | apply notification_below_fadeOut
    | assumption
    | eapply chat_node_below_le; [|eassumption]; lia
    | eapply notification_below_le; [|eassumption]; lia ].

(** Every turn of the event loop keeps the node numbers in order. *)
Lemma step_nodes_numbered (env : Env) (e : Event) (w : World) :
  nodes_numbered w -> nodes_numbered (step env e w).
Proof.
  unfold nodes_numbered. destruct_world w. cbn. intros [Hchat Htoasts].
  destruct e; js_unfold; js_cases; unfold constant; split; numbered.
Qed.

Lemma run_nodes_numbered (events : list (Env * Event)) (w : World) :
  nodes_numbered w -> nodes_numbered (run events w).
Proof.
  revert w. induction events as [|[env e] rest IH]; intros w H; [exact H|].
  cbn [run]. apply IH, step_nodes_numbered, H.
Qed.

(** ** Notifications *)

Lemma fadeOut_others (n : nat) (l : list Notification) :
  Forall (fun t => (notification_node t < n)%nat) l ->
  map (fun t => if Nat.eqb (notification_node t) n
                then t <| animation := fadeOut |> else t) l = l.
Proof.
  induction 1 as [|t l Ht _ IH]; [reflexivity|]. cbn [map]. rewrite IH.
  destruct (Nat.eqb_spec (notification_node t) n); [lia|reflexivity].
Qed.

Lemma remove_others (n : nat) (l : list Notification) :
  Forall (fun t => (notification_node t < n)%nat) l ->
  filter (fun t => negb (Nat.eqb (notification_node t) n)) l = l.
Proof.
  induction 1 as [|t l Ht _ IH]; [reflexivity|]. cbn [filter]. rewrite IH.
  destruct (Nat.eqb_spec (notification_node t) n); [lia|reflexivity].
Qed.

(** X10: the life of a toast.  [showNotification] appends the toast,
    fading in, with the alert class "danger" for type "error" and
    "success" for any other type, and sets a 3000 ms timeout; that
    timeout turns this toast, and no other, to fading out and sets a
    300 ms timeout; that one removes this toast and no other, so that the
    toasts shown are again those from before the call. *)
Theorem notification_lifecycle (env1 env2 env3 : Env) (w : World) (message type : jsstring) :
  nodes_numbered w ->
  let n := next_node (browser w) in
  let toast (a : Animation) :=
    {| notification_node := n;
       alert_class := lit "alert alert-"
         ++ (if jsstring_eqb type (lit "error") then lit "danger" else lit "success")
         ++ lit " notification";
       textContent := message;
       animation := a |} in
  let shown := exec (showNotification message type) env1 w in
  let fading := exec (notification_fadeOut n) env2 shown in
  let gone := exec (notification_remove n) env3 fading in
  notifications (browser shown) = notifications (browser w) ++ [toast fadeIn] /\
  timeouts (browser shown) = timeouts (browser w) ++ [(3000, NotificationFadeOut n)] /\
  notifications (browser fading) = notifications (browser w) ++ [toast fadeOut] /\
  timeouts (browser fading) = timeouts (browser shown) ++ [(300, NotificationRemove n)] /\
  notifications (browser gone) = notifications (browser w).
Proof.
  intros [_ Htoasts]. destruct_world w. cbn in Htoasts. js_unfold. js_cbn.
  rewrite !map_app, !filter_app, fadeOut_others, remove_others by exact Htoasts.
  cbn. rewrite !Nat.eqb_refl. cbn. rewrite app_nil_r. repeat split.
Qed.

Lemma notification_lifecycle_witness :
  nodes_numbered asking /\
  notifications (browser
    (exec (notification_remove 3) (env_at 9)
      (exec (notification_fadeOut 3) (env_at 8)
        (exec (showNotification (lit "Failed to fetch") (lit "error")) (env_at 5) asking))))
  = notifications (browser asking).
Proof.
  assert (H : nodes_numbered asking).
  { unfold asking. apply run_nodes_numbered. split; cbn; repeat constructor. }
  split; [exact H|].
  exact (proj2 (proj2 (proj2 (proj2
    (notification_lifecycle (env_at 5) (env_at 8) (env_at 9) asking
       (lit "Failed to fetch") (lit "error") H))))).
Defined.

(** ** The chat *)

Lemma keep_numbered_chat (n m : nat) (l : list ChatChild) :
  Forall (chat_node_below n) l -> (n <= m)%nat ->
  filter (fun c => negb (is_node m c)) l = l.
Proof.
  intros H Hle. induction H as [|c l Hc _ IH]; [reflexivity|]. cbn [filter]. rewrite IH.
  destruct c as [|k cls body]; cbn in *; [reflexivity|].
  destruct (Nat.eqb_spec k m); [lia|reflexivity].
Qed.

Lemma remove_indicator (n : nat) (l : list ChatChild)
    (cls1 cls2 : jsstring) (b1 b2 : NodeContent) :
  Forall (chat_node_below n) l ->
  filter (fun c => negb (is_node (S n) c))
    (l ++ [MessageDiv n cls1 b1] ++ [MessageDiv (S n) cls2 b2])
  = l ++ [MessageDiv n cls1 b1].
Proof.
  intros H. rewrite filter_app, (keep_numbered_chat n (S n) l H) by lia.
  cbn. rewrite Nat.eqb_refl. destruct (Nat.eqb_spec n (S n)); [lia|reflexivity].
Qed.

(** X11: a question and its answer.  With a query that is not blank,
    [sendQuery] appends the trimmed query as the text of a user message,
    then the typing indicator, empties the input and posts the trimmed
    query; when the response comes without error, the indicator is
    replaced by an assistant message holding [md.render(response)], the
    rest of the transcript stays in place and no toast is shown. *)
Theorem question_and_answer (env1 env2 : Env) (w : World)
    (ok : bool) (body : QueryBody) (answer : jsstring) :
  nodes_numbered w ->
  trim (queryInput_value (chat_dom w)) <> [] ->
  query_error body = None \/ query_error body = Some [] ->
  response body = Some answer ->
  let n := next_node (browser w) in
  let query := trim (queryInput_value (chat_dom w)) in
  let user := MessageDiv n (lit "message user-message") (TextContent query) in
  let sent := exec sendQuery env1 w in
  let answered := exec (sendQuery_settled (S n) (Json ok body)) env2 sent in
  chatMessages (chat_dom sent) = chatMessages (chat_dom w) ++
    [user; MessageDiv (S n) typingIndicator_className (InnerHTML typingIndicator_markup)] /\
  queryInput_value (chat_dom sent) = [] /\
  requests (browser sent) = requests (browser w) ++ [PostQuery query] /\
  pending (browser sent) = pending (browser w) ++ [PendingQuery (S n)] /\
  chatMessages (chat_dom answered) = chatMessages (chat_dom w) ++
    [user; MessageDiv (S (S n)) (lit "message assistant-message")
             (InnerHTML (md_render env2 answer))] /\
  notifications (browser answered) = notifications (browser w).
Proof.
  intros [Hchat _] Hquery Herr Hresp. destruct body as [qerr qresp]. cbn in Herr, Hresp.
  subst qresp. destruct_world w. cbn -[trim] in Hchat, Hquery. js_unfold. js_cbn.
  destruct (trim input) as [|c query] eqn:Htrim; [contradiction|].
  destruct Herr as [-> | ->]; cbn -[filter app]; unfold constant;
    rewrite <- ?app_assoc; rewrite ?remove_indicator by exact Hchat;
    rewrite <- ?app_assoc; repeat split.
Qed.

Lemma question_and_answer_witness :
  let w := step (env_at 3) (QueryInputEdit (lit " hi ")) (step (env_at 9) ClearChatClick asking) in
  chatMessages (chat_dom
    (exec (sendQuery_settled 4 (Json true {| query_error := None; response := Some (lit "ok") |}))
       (env_at 5) (exec sendQuery (env_at 4) w)))
  = [MessageDiv 3 (lit "message user-message") (TextContent (lit "hi"));
     MessageDiv 5 (lit "message assistant-message") (InnerHTML (lit "ok"))].
Proof.
  assert (H : nodes_numbered
    (step (env_at 3) (QueryInputEdit (lit " hi ")) (step (env_at 9) ClearChatClick asking))).
  { do 2 apply step_nodes_numbered. unfold asking. apply run_nodes_numbered.
    split; cbn; repeat constructor. }
  assert (Hq : trim (queryInput_value (chat_dom
    (step (env_at 3) (QueryInputEdit (lit " hi ")) (step (env_at 9) ClearChatClick asking)))) <> [])
    by discriminate.
  exact (proj1 (proj2 (proj2 (proj2 (proj2
    (question_and_answer (env_at 4) (env_at 5) _ true
       {| query_error := None; response := Some (lit "ok") |} (lit "ok")
       H Hq (or_introl eq_refl) eq_refl)))))).
Defined.

(** X12: a question that fails.  For a rejected request, an unparsable
    body or a non-empty error field, the indicator is removed, the
    failure message is shown in an error toast, and the user message stays
    in the transcript without an answer; the input stays empty: the
    question is not put back and nothing is sent again. *)
Theorem question_that_fails (env1 env2 : Env) (w : World)
    (o : Outcome QueryBody) (message : jsstring) :
  nodes_numbered w ->
  trim (queryInput_value (chat_dom w)) <> [] ->
  rejection query_error o = Some message ->
  let n := next_node (browser w) in
  let query := trim (queryInput_value (chat_dom w)) in
  let sent := exec sendQuery env1 w in
  let failed := exec (sendQuery_settled (S n) o) env2 sent in
  chatMessages (chat_dom failed) = chatMessages (chat_dom w) ++
    [MessageDiv n (lit "message user-message") (TextContent query)] /\
  notifications (browser failed) =
    notifications (browser w) ++ [error_toast (S (S n)) message] /\
  queryInput_value (chat_dom failed) = [] /\
  requests (browser failed) = requests (browser sent).
Proof.
  intros [Hchat _] Hquery Hrej. destruct_world w. cbn -[trim] in Hchat, Hquery.
  unfold error_toast. js_unfold. js_cbn.
  destruct (trim input) as [|c query] eqn:Htrim; [contradiction|].
  destruct o as [m | ok m | ok [[[|c' e]|] qresp]]; cbn in Hrej; try discriminate Hrej;
    injection Hrej as <-; cbn -[filter app]; unfold constant;
    rewrite <- ?app_assoc; rewrite ?filter_idem, ?remove_indicator by exact Hchat;
    repeat split.
Qed.

Lemma question_that_fails_witness :
  let w := step (env_at 3) (QueryInputEdit (lit " hi ")) (step (env_at 9) ClearChatClick asking) in
  chatMessages (chat_dom
    (exec (sendQuery_settled 4 (NetworkFailure (lit "Failed to fetch")))
       (env_at 5) (exec sendQuery (env_at 4) w)))
  = [MessageDiv 3 (lit "message user-message") (TextContent (lit "hi"))].
Proof.
  assert (H : nodes_numbered
    (step (env_at 3) (QueryInputEdit (lit " hi ")) (step (env_at 9) ClearChatClick asking))).
  { do 2 apply step_nodes_numbered. unfold asking. apply run_nodes_numbered.
    split; cbn; repeat constructor. }
  assert (Hq : trim (queryInput_value (chat_dom
    (step (env_at 3) (QueryInputEdit (lit " hi ")) (step (env_at 9) ClearChatClick asking)))) <> [])
    by discriminate.
  exact (proj1 (question_that_fails (env_at 4) (env_at 5) _
                  (NetworkFailure (lit "Failed to fetch")) (lit "Failed to fetch")
                  H Hq eq_refl)).
Defined.

(** X13: whatever the outcome of a query, and whatever else is in the
    transcript: its continuation removes the typing indicator it was
    created with and no other child, the indicators of other questions
    included, and adds at most one child, an assistant message, at the
    end. *)
Theorem settled_query_removes_its_own_indicator (env : Env) (w : World)
    (typingIndicator : nat) (o : Outcome QueryBody) :
  let w' := exec (sendQuery_settled typingIndicator o) env w in
  let kept := filter (fun c => negb (is_node typingIndicator c)) (chatMessages (chat_dom w)) in
  chatMessages (chat_dom w') = kept \/
  exists answer,
    chatMessages (chat_dom w') = kept ++
      [MessageDiv (next_node (browser w)) (lit "message assistant-message")
         (InnerHTML (md_render env answer))].
Proof.
  destruct_world w.
  destruct o as [m | ok m | ok [[[|c e]|] [answer|]]]; js_unfold; cbn -[filter];
    rewrite ?filter_idem; try (left; reflexivity); right; exists answer; reflexivity.
Qed.

(** ** Uploads, further *)

Lemma count_file_info_remove (l : list DropChild) :
  List.length (filter is_file_info (remove_first_file_info l))
  = pred (List.length (filter is_file_info l)).
Proof.
  induction l as [|[|fileName ids listener] l IH]; [reflexivity| |reflexivity].
  cbn. exact IH.
Qed.

Lemma count_file_info_remove_spinner (l : list DropChild) :
  List.length (filter is_file_info (remove_first_spinner l))
  = List.length (filter is_file_info l).
Proof.
  induction l as [|[|fileName [|ids] listener] l IH]; try reflexivity.
  cbn. f_equal. exact IH.
Qed.

(** Hiding a spinner keeps a badge that comes last in the drop zone, with
    one id less inside it at most. *)
Lemma remove_spinner_before_badge (l : list DropChild) (fileName : jsstring)
    (k : nat) (listener : bool) :
  exists l' k',
    remove_first_spinner (l ++ [FileInfo fileName k listener])
      = l' ++ [FileInfo fileName k' listener] /\
    (k' <= k)%nat /\
    List.length (filter is_file_info l') = List.length (filter is_file_info l).
Proof.
  induction l as [|[|other [|ids] d] l (l' & k' & Heq & Hle & Hcount)].
  - destruct k as [|k]; [exists [], 0%nat|exists [], k]; cbn; repeat split; lia.
  - exists l, k. repeat split. apply le_n.
  - exists (FileInfo other 0 d :: l'), k'. cbn [app remove_first_spinner]. rewrite Heq.
    cbn. repeat split; [exact Hle|]. f_equal. exact Hcount.
  - exists (FileInfo other ids d :: l), k. repeat split. apply le_n.
Qed.

(** X14: an upload that fails (rejected request, unparsable body, or a
    non-empty error field) shows its message in an error toast and leaves
    the rest of the page as it was: the statistics, the preview and the
    chat controls keep their state, a file badge of an earlier upload
    stays in the drop zone, and nothing is sent again. *)
Theorem failed_upload_leaves_the_page (env : Env) (w : World) (f : File)
    (o : Outcome UploadBody) (message : jsstring) :
  rejection upload_error o = Some message ->
  let w' := exec (handleFile_settled f o) env w in
  notifications (browser w') =
    notifications (browser w) ++ [error_toast (next_node (browser w)) message] /\
  chat_dom w' = chat_dom w /\
  statsSection_d_none (upload_dom w') = statsSection_d_none (upload_dom w) /\
  rowCount (upload_dom w') = rowCount (upload_dom w) /\
  colCount (upload_dom w') = colCount (upload_dom w) /\
  previewContent (upload_dom w') = previewContent (upload_dom w) /\
  file_infos w' = file_infos w /\
  requests (browser w') = requests (browser w).
Proof.
  intros Hrej. unfold file_infos. destruct_world w.
  destruct o as [m | ok m | ok [[[|c e]|] ustats uprev]]; cbn in Hrej; try discriminate Hrej;
    injection Hrej as <-; unfold error_toast; js_unfold;
    cbn -[filter remove_first_spinner List.length];
    rewrite ?count_file_info_remove_spinner; repeat split.
Qed.

Lemma failed_upload_leaves_the_page_witness :
  let o := Json false {| upload_error := Some (lit "Invalid CSV"); stats := None; preview := [] |} in
  rejection upload_error o = Some (lit "Invalid CSV") /\
  chat_dom (exec (handleFile_settled {| name := lit "bad.csv" |} o) (env_at 7) asking)
    = chat_dom asking.
Proof.
  split; [reflexivity|].
  exact (proj1 (proj2 (failed_upload_leaves_the_page (env_at 7) asking {| name := lit "bad.csv" |}
     (Json false {| upload_error := Some (lit "Invalid CSV"); stats := None; preview := [] |})
     (lit "Invalid CSV") eq_refl))).
Defined.

(** X15: a response without error and without [stats].  [handleUploadSuccess]
    has shown the statistics section when [data.stats.rows] throws, so the
    section stays shown, with the old counts and preview; the chat
    controls are not touched, no badge is added or taken away, and the
    [TypeError] is shown in an error toast. *)
Theorem upload_without_stats (env : Env) (w : World) (f : File) (ok : bool) (body : UploadBody) :
  upload_error body = None \/ upload_error body = Some [] ->
  stats body = None ->
  let w' := exec (handleFile_settled f (Json ok body)) env w in
  statsSection_d_none (upload_dom w') = false /\
  rowCount (upload_dom w') = rowCount (upload_dom w) /\
  colCount (upload_dom w') = colCount (upload_dom w) /\
  previewContent (upload_dom w') = previewContent (upload_dom w) /\
  chat_dom w' = chat_dom w /\
  file_infos w' = file_infos w /\
  notifications (browser w') =
    notifications (browser w) ++ [error_toast (next_node (browser w)) (type_error_message env)].
Proof.
  intros Herr Hstats. destruct body as [uerr ustats uprev]. cbn in Herr, Hstats. subst ustats.
  unfold file_infos. destruct_world w. unfold error_toast.
  destruct Herr as [-> | ->]; js_unfold; cbn -[filter remove_first_spinner List.length];
    rewrite ?count_file_info_remove_spinner; repeat split.
Qed.

Lemma upload_without_stats_witness :
  statsSection_d_none (upload_dom served) = true /\
  statsSection_d_none (upload_dom
    (exec (handleFile_settled {| name := lit "data.csv" |}
             (Json true {| upload_error := None; stats := None; preview := [] |}))
       (env_at 2) served)) = false.
Proof.
  split; [reflexivity|].
  exact (proj1 (upload_without_stats (env_at 2) served {| name := lit "data.csv" |} true
                  {| upload_error := None; stats := None; preview := [] |}
                  (or_introl eq_refl) eq_refl)).
Defined.

(** X16: an upload that succeeds shows the statistics section with the
    row and column counts and the preview of the response, enables the
    chat controls and puts the badge of the uploaded file last in the drop
    zone, in place of the badge that was there; the transcript and the
    query input are left alone and nothing is sent.  Where the markup of
    the file name leaves the delete button in place, the badge gets its
    listener and the success toast is shown; where it has swallowed the
    button, adding the listener throws: the badge stays without listener
    and the [TypeError] is shown in an error toast instead. *)
Theorem successful_upload_page (env : Env) (w : World) (f : File) (ok : bool)
    (body : UploadBody) (rows_ columns_ : Z) :
  upload_error body = None \/ upload_error body = Some [] ->
  stats body = Some (rows_, columns_) ->
  let w' := exec (handleFile_settled f (Json ok body)) env w in
  let fileInfo := parse_file_info env (name f) in
  statsSection_d_none (upload_dom w') = false /\
  rowCount (upload_dom w') = rows_ /\
  colCount (upload_dom w') = columns_ /\
  previewContent (upload_dom w') = preview body /\
  chat_controls_disabled false w' /\
  (exists before ids,
     dropZone (upload_dom w') = before ++
       [FileInfo (name f) ids (delete_button fileInfo)] /\
     (ids <= injected_spinner_ids fileInfo)%nat /\
     (delete_button fileInfo = true -> ids = injected_spinner_ids fileInfo) /\
     ((file_infos w <= 1)%nat -> filter is_file_info before = [])) /\
  notifications (browser w') = notifications (browser w) ++
    [if delete_button fileInfo
     then success_toast (next_node (browser w)) (lit "File uploaded successfully!")
     else error_toast (next_node (browser w)) (type_error_message env)] /\
  chatMessages (chat_dom w') = chatMessages (chat_dom w) /\
  queryInput_value (chat_dom w') = queryInput_value (chat_dom w) /\
  requests (browser w') = requests (browser w).
Proof.
  intros Herr Hstats. destruct body as [uerr ustats uprev]. cbn in Herr, Hstats. subst ustats.
  unfold file_infos, chat_controls_disabled. destruct_world w.
  unfold success_toast, error_toast.
  assert (Hnone : forall l, (List.length (filter is_file_info l) <= 1)%nat ->
                            List.length (filter is_file_info
                              (remove_first_file_info (remove_first_spinner l))) = 0%nat).
  { intros l Hl. rewrite count_file_info_remove, count_file_info_remove_spinner. lia. }
  destruct Herr as [-> | ->]; js_unfold;
    cbn -[filter remove_first_spinner remove_first_file_info app List.length];
    destruct (delete_button (parse_file_info env (name f)));
    cbn -[filter remove_first_spinner remove_first_file_info app List.length];
    repeat (split; try reflexivity);
    try (eexists; eexists; (split; [reflexivity|]); (split; [apply le_n|]);
         (split; [reflexivity|]); intros Hone; apply length_zero_iff_nil, Hnone, Hone);
    destruct (remove_spinner_before_badge
                (remove_first_file_info (remove_first_spinner zone)) (name f)
                (injected_spinner_ids (parse_file_info env (name f))) false)
      as (before & ids & -> & Hle & Hcount);
    exists before, ids; (split; [reflexivity|]); (split; [exact Hle|]);
    (split; [discriminate|]); intros Hone; apply length_zero_iff_nil;
    rewrite Hcount; apply Hnone, Hone.
Qed.

Lemma successful_upload_page_witness :
  let body := {| upload_error := None; stats := Some (10, 3); preview := lit "<table></table>" |} in
  let w' := exec (handleFile_settled {| name := lit "data.csv" |} (Json true body)) (env_at 2)
              (exec (handleFile (Some {| name := lit "data.csv" |})) (env_at 1) loaded) in
  rowCount (upload_dom w') = 10 /\ colCount (upload_dom w') = 3 /\
  map textContent (notifications (browser w')) = [lit "File uploaded successfully!"].
Proof.
  destruct (successful_upload_page (env_at 2)
              (exec (handleFile (Some {| name := lit "data.csv" |})) (env_at 1) loaded)
              {| name := lit "data.csv" |} true
              {| upload_error := None; stats := Some (10, 3); preview := lit "<table></table>" |}
              10 3 (or_introl eq_refl) eq_refl) as (_ & H1 & H2 & _ & _ & _ & H3 & _).
  split; [exact H1|]. split; [exact H2|]. rewrite H3. reflexivity.
Defined.

Lemma step_file_infos (env : Env) (e : Event) (w : World) :
  (file_infos w <= 1)%nat -> (file_infos (step env e w) <= 1)%nat.
Proof.
  unfold file_infos. intros Hinv. destruct_world w. cbn -[filter List.length] in Hinv.
  destruct e; js_unfold; js_cases;
    repeat first [ rewrite count_file_info_remove_spinner
                 | rewrite count_file_info_remove
                 | rewrite filter_app
                 | rewrite length_app ];
    cbn [filter is_file_info List.length]; lia.
Qed.

(** X17: the drop zone never shows two file badges.  Once it shows at
    most one, no run of events (uploads that overlap, succeed or fail,
    deletions) makes it show more; a successful upload leaves exactly one,
    and [deleteFile] leaves none. *)
Theorem at_most_one_file_badge (events : list (Env * Event)) (w : World) :
  (file_infos w <= 1)%nat ->
  (file_infos (run events w) <= 1)%nat /\
  (forall env f ok body rows_ columns_,
     upload_error body = None \/ upload_error body = Some [] ->
     stats body = Some (rows_, columns_) ->
     file_infos (exec (handleFile_settled f (Json ok body)) env w) = 1%nat) /\
  (forall env, file_infos (exec deleteFile env w) = 0%nat).
Proof.
  intros Hinv. split; [|split].
  - revert w Hinv. induction events as [|[env e] rest IH]; intros w Hinv; [exact Hinv|].
    cbn [run]. apply IH, step_file_infos, Hinv.
  - intros env f ok [uerr ustats uprev] r c Herr Hstats. cbn in Herr, Hstats. subst ustats.
    unfold file_infos in *. destruct_world w. cbn -[filter List.length] in Hinv.
    destruct Herr as [-> | ->]; js_unfold;
      cbn -[filter List.length remove_first_spinner remove_first_file_info app];
      destruct (delete_button _);
      cbn -[filter List.length remove_first_spinner remove_first_file_info app];
      repeat first [ rewrite count_file_info_remove_spinner
                   | rewrite count_file_info_remove
                   | rewrite filter_app
                   | rewrite length_app ];
      cbn [filter is_file_info List.length]; lia.
  - intros env. unfold file_infos in *. destruct_world w. cbn -[filter List.length] in Hinv.
    js_unfold. cbn -[filter List.length remove_first_file_info].
    rewrite count_file_info_remove. lia.
Qed.

Lemma at_most_one_file_badge_witness :
  (file_infos asking <= 1)%nat /\
  (file_infos (run [(env_at 6%Z, Drop (Some {| name := lit "more.csv" |}));
                    (env_at 7%Z, RequestSettles 2 (UploadResponse
                       (Json true {| upload_error := None; stats := Some (4, 2)%Z;
                                     preview := [] |})))] asking) <= 1)%nat.
Proof.
  assert (H : (file_infos asking <= 1)%nat) by (vm_compute; apply le_n).
  split; [exact H|].
  exact (proj1 (at_most_one_file_badge _ asking H)).
Defined.



(** ** What keeps the chat closed *)

Lemma step_keeps_chat_closed (env : Env) (e : Event) (w : World) :
  is_upload_response e = false ->
  chat_controls_disabled true w ->
  chat_controls_disabled true (step env e w) /\
  query_fetches (step env e w) = query_fetches w.
Proof.
  unfold chat_controls_disabled, query_fetches. intros He (H1 & H2 & H3).
  destruct_world w. cbn in H1, H2, H3. subst input_off btn_off clear_off.
  destruct e; try discriminate He; js_unfold; js_cases;
    try discriminate He; rewrite ?andb_false_r in *; try discriminate;
    rewrite ?filter_app, ?length_app; cbn; repeat split; lia.
Qed.

(** X19: only the response to an upload opens the chat.  While the three
    chat controls are disabled, no other event (clicks, keys, drops,
    timers, responses to queries or status requests, deletion) enables
    any of them, and, a disabled control firing no click or key event, no
    query is sent. *)
Theorem chat_stays_closed_without_upload (events : list (Env * Event)) (w : World) :
  forallb (fun ev => negb (is_upload_response (snd ev))) events = true ->
  chat_controls_disabled true w ->
  chat_controls_disabled true (run events w) /\
  query_fetches (run events w) = query_fetches w.
Proof.
  revert w. induction events as [|[env e] rest IH]; intros w Hnone Hclosed.
  - cbn. auto.
  - cbn in Hnone. apply andb_true_iff in Hnone as [He Hrest].
    apply negb_true_iff in He.
    destruct (step_keeps_chat_closed env e w He Hclosed) as (Hc & Hq).
    destruct (IH (step env e w) Hrest Hc) as (Hc' & Hq').
    cbn [run]. rewrite <- Hq. auto.
Qed.

Lemma chat_stays_closed_without_upload_witness :
  chat_controls_disabled true loaded /\
  query_fetches (run [(env_at 1, QueryInputEdit (lit "hi")); (env_at 2, QueryBtnClick);
                      (env_at 3, QueryInputKeypress (lit "Enter"));
                      (env_at 4, Drop (Some {| name := lit "data.csv" |}))] loaded) = 0%nat.
Proof.
  assert (H : chat_controls_disabled true loaded) by (repeat split).
  split; [exact H|].
  destruct (chat_stays_closed_without_upload
              [(env_at 1, QueryInputEdit (lit "hi")); (env_at 2, QueryBtnClick);
               (env_at 3, QueryInputKeypress (lit "Enter"));
               (env_at 4, Drop (Some {| name := lit "data.csv" |}))] loaded eq_refl H)
    as (_ & Hq).
  rewrite Hq. reflexivity.
Defined.

(** ** Errors of the page and memory samples *)

(** X20: errors no callback catches and rejections no chain handles are
    logged, not shown.  With the listeners of [window] installed, each
    puts one [error] entry at the front of the log queue, under the
    message "Global error:" or "Unhandled Promise rejection:" with the
    payload it was given, and shows no toast and sends no request; on a
    page whose [debug] object was off at load time the listeners are not
    there and the event changes nothing. *)
Theorem window_errors_are_logged_not_shown (env : Env) (w : World) (v : JsValue) :
  0 < maxLogEntries (debug_object w) ->
  let logged (e : Event) (message : jsstring) :=
    if window_listeners (browser w) then
      hd_error (logQueue (debug_object (step env e w)))
        = Some (LogEntry.make error_t (now env) message JUndefined (debug.default_null v)) /\
      notifications (browser (step env e w)) = notifications (browser w) /\
      requests (browser (step env e w)) = requests (browser w)
    else step env e w = w in
  logged (WindowError v) (lit "Global error:") /\
  logged (UnhandledRejection v) (lit "Unhandled Promise rejection:").
Proof.
  intros Hmax. destruct_world w. cbn in Hmax. cbn [window_listeners browser].
  destruct wwired; split; try reflexivity; js_unfold; js_cbn;
    (match goal with
     | |- context [Z.gtb ?a ?b] => destruct (Z.gtb_spec a b) as [Hgt|Hle]
     end; js_cbn; destruct logs; js_cbn; (split; [|split; reflexivity]);
     destruct queue; try reflexivity; cbn in Hgt; lia).
Qed.

Lemma window_errors_are_logged_not_shown_witness :
  0 < maxLogEntries (debug_object loaded) /\
  notifications (browser (step (env_at 4) (WindowError (JString (lit "boom"))) loaded)) = [] /\
  List.length (logQueue (debug_object
    (step (env_at 4) (WindowError (JString (lit "boom"))) loaded))) = 1%nat.
Proof.
  split; [reflexivity|].
  destruct (proj1 (window_errors_are_logged_not_shown (env_at 4) loaded
                     (JString (lit "boom")) eq_refl)) as (_ & H & _).
  split; [exact H|reflexivity].
Defined.

(** X21: the memory sampler.  [startPerformanceMonitoring] starts its
    10000 ms interval exactly when the browser has [performance.memory].
    When the interval fires, the three heap sizes, taken below
    [1024 ^ 4], go through [formatBytes] into one [info] entry
    "Memory Usage" at the front of the queue; this happens whether the
    debug panel is shown or not, and sends no status request. *)
Theorem memory_sampler (env : Env) (w : World) (n : nat) (delay : Z)
    (usedJSHeapSize totalJSHeapSize jsHeapSizeLimit : Z) :
  (intervals (browser (exec debug.startPerformanceMonitoring env w)) =
     intervals (browser w) ++
       match performance_memory env with
       | Some _ => [(10000, SampleMemory)]
       | None => []
       end) /\
  (nth_error (intervals (browser w)) n = Some (delay, SampleMemory) ->
   performance_memory env = Some (usedJSHeapSize, totalJSHeapSize, jsHeapSizeLimit) ->
   0 <= usedJSHeapSize < debug.k ^ 4 ->
   0 <= totalJSHeapSize < debug.k ^ 4 ->
   0 <= jsHeapSizeLimit < debug.k ^ 4 ->
   enabled (debug_object w) = true ->
   0 < maxLogEntries (debug_object w) ->
   let w' := step env (IntervalFires n) w in
   hd_error (logQueue (debug_object w')) =
     Some (LogEntry.make info (now env) (lit "Memory Usage")
             (JObject [(lit "usedHeapSize", JString (debug.formatBytes usedJSHeapSize));
                       (lit "totalHeapSize", JString (debug.formatBytes totalJSHeapSize));
                       (lit "limit", JString (debug.formatBytes jsHeapSizeLimit))])
             JUndefined) /\
   requests (browser w') = requests (browser w) /\
   debugPanel_show (debug_dom w') = debugPanel_show (debug_dom w)).
Proof.
  destruct_world w. split.
  - js_unfold. destruct (performance_memory env) as [[[u t] l]|]; cbn -[app];
      [reflexivity|symmetry; apply app_nil_r].
  - cbn -[nth_error Z.pow]. intros Htimer Hmem _ _ _ -> Hmax. js_unfold.
    cbn -[nth_error Z.gtb Z.of_nat List.length removelast debug.formatBytes].
    rewrite Htimer. cbn -[nth_error Z.gtb Z.of_nat List.length removelast debug.formatBytes].
    rewrite Hmem. cbn -[nth_error Z.gtb Z.of_nat List.length removelast debug.formatBytes].
    match goal with
    | |- context [Z.gtb ?a ?b] => destruct (Z.gtb_spec a b) as [Hgt|Hle]
    end; cbn -[nth_error Z.gtb Z.of_nat List.length removelast debug.formatBytes];
      destruct logs; cbn -[removelast debug.formatBytes]; (split; [|split; reflexivity]);
      destruct queue; try reflexivity; cbn in Hgt; lia.
Qed.

Lemma memory_sampler_witness :
  intervals (browser loaded_with_memory) = [(5000, PollSystemStatus); (10000, SampleMemory)] /\
  hd_error (logQueue (debug_object
    (step (env_with_memory 10000) (IntervalFires 1) loaded_with_memory))) =
    Some (LogEntry.make info 10000 (lit "Memory Usage")
            (JObject [(lit "usedHeapSize", JString (lit "1.5 KB"));
                      (lit "totalHeapSize", JString (lit "1 MB"));
                      (lit "limit", JString (lit "4 GB"))])
            JUndefined).
Proof.
  split; [reflexivity|].
  assert (H1 : 0 <= 1536 < debug.k ^ 4) by (vm_compute; split; [discriminate|reflexivity]).
  assert (H2 : 0 <= 1048576 < debug.k ^ 4) by (vm_compute; split; [discriminate|reflexivity]).
  assert (H3 : 0 <= 4294967296 < debug.k ^ 4) by (vm_compute; split; [discriminate|reflexivity]).
  exact (proj1 (proj2 (memory_sampler (env_with_memory 10000) loaded_with_memory 1 10000
                         1536 1048576 4294967296) eq_refl eq_refl H1 H2 H3 eq_refl eq_refl)).
Defined.

(** ** What [handleFile] lets through *)

Lemma app_one_neq {A} (l : list A) (x : A) : l ++ [x] <> l.
Proof.
  intros H. apply (f_equal (@List.length A)) in H. rewrite length_app in H. cbn in H. lia.
Qed.

(** X22: [handleFile] sends an upload exactly for a file whose name ends
    in ".csv", in lower case: then it remembers the file and posts it,
    without a toast; for any other name, and for no file at all (an empty
    drop or selection), it shows the toast "Please select a CSV file",
    changes nothing else and sends nothing. *)
Theorem handleFile_sends_exactly_csv (env : Env) (w : World) (file : option File) :
  let w' := exec (handleFile file) env w in
  ((exists f p, file = Some f /\ name f = p ++ lit ".csv") <->
   requests (browser w') <> requests (browser w)) /\
  (forall f p, file = Some f -> name f = p ++ lit ".csv" ->
     requests (browser w') = requests (browser w) ++ [PostUpload f] /\
     currentFile w' = Some f /\
     notifications (browser w') = notifications (browser w)) /\
  ((forall f p, file = Some f -> name f <> p ++ lit ".csv") ->
     handleFile file env w = (Normal tt, with_error_toast (lit "Please select a CSV file") w)).
Proof.
  destruct_world w. split; [|split].
  - destruct file as [f|]; split.
    + intros (f' & p & [= <-] & Hname).
      assert (E : endsWith (name f) (lit ".csv") = true) by (apply endsWith_spec; eauto).
      js_unfold. rewrite E. cbn -[app]. apply app_one_neq.
    + js_unfold. destruct (endsWith (name f) (lit ".csv")) eqn:E; cbn -[app]; intros H.
      * apply endsWith_spec in E as [p Hp]. eauto.
      * exfalso. apply H. reflexivity.
    + intros (f & p & H & _). discriminate H.
    + cbn. intros H. exfalso. apply H. reflexivity.
  - intros f p -> Hname.
    assert (E : endsWith (name f) (lit ".csv") = true) by (apply endsWith_spec; eauto).
    js_unfold. rewrite E. repeat split.
  - intros Hother. destruct file as [f|]; [|reflexivity].
    assert (E : endsWith (name f) (lit ".csv") = false).
    { destruct (endsWith (name f) (lit ".csv")) eqn:E; [|reflexivity].
      apply endsWith_spec in E as [p Hp]. exfalso. exact (Hother f p eq_refl Hp). }
    js_unfold. unfold with_error_toast, error_toast. rewrite E. reflexivity.
Qed.

Lemma handleFile_sends_exactly_csv_witness :
  requests (browser (exec (handleFile (Some {| name := lit "data.csv" |})) (env_at 1) loaded))
    = [GetDebugStatus; PostUpload {| name := lit "data.csv" |}] /\
  handleFile (Some {| name := lit "DATA.CSV" |}) (env_at 1) loaded
    = (Normal tt, with_error_toast (lit "Please select a CSV file") loaded) /\
  handleFile None (env_at 1) loaded
    = (Normal tt, with_error_toast (lit "Please select a CSV file") loaded).
Proof.
  split; [|split].
  - exact (proj1 (proj1 (proj2 (handleFile_sends_exactly_csv (env_at 1) loaded
             (Some {| name := lit "data.csv" |}))) _ (lit "data") eq_refl eq_refl)).
  - apply (proj2 (proj2 (handleFile_sends_exactly_csv (env_at 1) loaded
             (Some {| name := lit "DATA.CSV" |})))).
    intros f p [= <-] Hp.
    assert (E : endsWith (lit "DATA.CSV") (lit ".csv") = true) by (apply endsWith_spec; eauto).
    discriminate E.
  - apply (proj2 (proj2 (handleFile_sends_exactly_csv (env_at 1) loaded None))).
    intros f p H. discriminate H.
Defined.

(** ** The status blocks *)

Lemma firstWord_split (s : jsstring) :
  no_space (firstWord s) /\
  exists rest, s = firstWord s ++ rest /\ (rest = [] \/ exists tail, rest = 32%N :: tail).
Proof.
  induction s as [|c s (Hns & rest & Hs & Hrest)]; cbn.
  - split; [constructor|]. exists []. auto.
  - destruct (N.eqb_spec c 32) as [-> | Hc].
    + split; [constructor|]. exists (32%N :: s). split; [reflexivity|]. right. eauto.
    + split; [constructor; assumption|]. exists rest. split; [|exact Hrest].
      cbn. f_equal. exact Hs.
Qed.

(** X23: what the status blocks show of a status document.  The
    environment line is never blank: an empty [flask_env] reads
    "development", any other is shown as it is.  The Python version is cut
    at its first space.  The line of chat messages is there exactly when
    the history is not empty, and then shows its length. *)
Theorem status_blocks (data : StatusDoc) :
  (flask_env data = [] ->
   status_environment (debug.formatSystemStatus data) = lit "development") /\
  (flask_env data <> [] ->
   status_environment (debug.formatSystemStatus data) = flask_env data) /\
  no_space (metric_python (debug.formatPerformanceMetrics data)) /\
  (exists rest,
     python_version data = metric_python (debug.formatPerformanceMetrics data) ++ rest /\
     (rest = [] \/ exists tail, rest = 32%N :: tail)) /\
  (chat_history_length data = 0 ->
   metric_chat_messages (debug.formatPerformanceMetrics data) = None) /\
  (chat_history_length data <> 0 ->
   metric_chat_messages (debug.formatPerformanceMetrics data)
     = Some (chat_history_length data)).
Proof.
  destruct data as [fenv pyv en mem shape chats]. cbn -[debug.formatBytes firstWord].
  split; [|split; [|split; [|split; [|split]]]].
  - intros ->. reflexivity.
  - destruct fenv; cbn; [intros H; contradiction|reflexivity].
  - apply firstWord_split.
  - apply firstWord_split.
  - intros ->. reflexivity.
  - intros H. destruct (Z.eqb_spec chats 0); [contradiction|reflexivity].
Qed.

Lemma status_blocks_witness :
  status_environment (debug.formatSystemStatus status_example) = lit "production" /\
  status_environment (debug.formatSystemStatus status_without_env) = lit "development" /\
  metric_chat_messages (debug.formatPerformanceMetrics status_example) = Some 2.
Proof.
  assert (H : flask_env status_example <> []) by discriminate.
  assert (H' : chat_history_length status_example <> 0) by discriminate.
  split; [exact (proj1 (proj2 (status_blocks status_example)) H)|]. split.
  - exact (proj1 (status_blocks status_without_env) eq_refl).
  - exact (proj2 (proj2 (proj2 (proj2 (proj2 (status_blocks status_example))))) H').
Defined.
